(** * Payment event pipeline: Stripe webhook and create-payment handlers

    A shallow embedding of the two edge functions
    [supabase/functions/stripe-webhook/index.ts] and
    [supabase/functions/create-payment-stripe/index.ts], of the part of the
    relational schema they write to, and of the properties the specification
    states about them. *)

From Stdlib Require Import String List ZArith Bool Lia Floats.
Import ListNotations.
Open Scope string_scope.

(** ** JavaScript values the handlers rely on *)

Module Js.

(** Truthiness of a value that is a string, [null] or [undefined]: the
    empty string is falsy like the two missing values. *)
Definition truthy (v : option string) : bool :=
  match v with
  | Some s => negb (s =? "")
  | None => false
  end.

(** [a || b] on such a value with a string default. *)
Definition or_else (v : option string) (d : string) : string :=
  match v with
  | Some s => if s =? "" then d else s
  | None => d
  end.

(** A [number] is an IEEE 754 binary64 value: Rocq's primitive [float]. *)
Definition number := float.

(** The integer nearest to the finite binary64 value [(-1)^s * m * 2^e],
    a tie going to the larger one, computed exactly. *)
Definition round_half_up (s : bool) (m : positive) (e : Z) : Z :=
  let M := if s then Z.neg m else Z.pos m in
  if (0 <=? e)%Z then (M * 2 ^ e)%Z
  else ((2 * M + 2 ^ (- e)) / 2 ^ (- e + 1))%Z.

(** An integer of magnitude at most 2^53 as a [number]; [neg] gives the
    sign of a zero result. *)
Definition of_Z (neg : bool) (z : Z) : number :=
  match z with
  | Z0 => if neg then (- 0)%float else 0%float
  | Zpos _ => PrimFloat.of_uint63 (Uint63.of_Z z)
  | Zneg _ => (- PrimFloat.of_uint63 (Uint63.of_Z (- z)))%float
  end.

(** [Math.round]: the integral number closest to [x], ties towards
    +infinity; zeros, infinities and NaN are returned as they are, and so is
    a value with no fractional bit. *)
Definition Math_round (x : number) : number :=
  match Prim2SF x with
  | S754_finite s m e =>
      if (0 <=? e)%Z then x else of_Z s (round_half_up s m e)
  | _ => x
  end.

(** Whether a number has an integral value. *)
Definition is_integer (x : number) : bool :=
  match Prim2SF x with
  | S754_zero _ => true
  | S754_finite _ m e => (0 <=? e)%Z || (Z.pos m mod 2 ^ (- e) =? 0)%Z
  | _ => false
  end.

(** [s.replace(pat, rep)] with a string pattern: the first occurrence
    only. *)
Fixpoint replace (pat rep s : string) : string :=
  if String.prefix pat s
  then rep ++ substring (String.length pat) (String.length s - String.length pat) s
  else match s with
       | EmptyString => EmptyString
       | String c s' => String c (replace pat rep s')
       end.

End Js.

(** ** Errors, responses and the store *)

(** What a [throw] carries: an [Error] built by the handler with its
    message, an error raised by the engine on a property read of
    [null]/[undefined] or by [JSON.parse], or an error raised by the provider
    SDK. *)
Inductive exn :=
| Error (message : string)
| TypeError
| SyntaxError
| ProviderError (message : string).

(** The result of a call that returns or throws. *)
Inductive result (A : Type) :=
| Ok (a : A)
| Raise (e : exn).
Arguments Ok {A} a.
Arguments Raise {A} e.

(** A provider object as the handlers read it: a payment intent ([id],
    [status], [client_secret]), or a charge or dispute ([payment_intent]).
    [obj_id] and [obj_payment_intent] are the text the client library puts in
    an equality filter for the property. *)
Record StripeObject := {
  obj_id : string;
  obj_payment_intent : string;
  obj_status : string;
  obj_client_secret : option string
}.

Record Customer := {
  name : string;
  email : string;
  document : string;
  phone : option string
}.

(** [interface PaymentRequest]; [customer] is [None] when the JSON body
    has none. *)
Record PaymentRequest := {
  pr_amount : Js.number;
  pr_payment_method : string;
  customer : option Customer;
  pr_description : option string;
  payment_method_id : option string
}.

(** The JSON body of a response. *)
Inductive Body :=
| NoBody
| ErrorBody (e : exn) (default : string)
| InvalidSignatureBody
| ReceivedBody
| PaymentBody (transaction_id stripe_payment_intent_id : string)
    (stripe_client_secret : option string) (status : string)
    (amount : Js.number) (payment_method : string).

Record Response := {
  resp_status : Z;
  resp_body : Body
}.

Module Db.

(** A row of [transactions], with the columns the handlers name. *)
Record Transaction := {
  tx_id : string;
  user_id : string;
  amount : Js.number;
  payment_method : string;
  payment_gateway : string;
  gateway_transaction_id : option string;
  gateway_response : option StripeObject;
  status : string;
  customer_name : string;
  customer_email : string;
  customer_document : string;
  description : string;
  settled_at : option string;
  refunded_at : option string
}.

(** A row of [fees] and of [wallets] (schema file, tables 13 and 2). *)
Record Fee := {
  fee_transaction_id : string;
  fee_user_id : string;
  fee_type : string;
  fee_amount : Js.number
}.

Record Wallet := {
  wallet_user_id : string;
  balance : Js.number;
  pending_balance : Js.number;
  blocked_balance : Js.number
}.

Record ActivityLog := {
  action : string;
  resource_type : string;
  event_type : string;
  event_id : string
}.

Record PspConfiguration := {
  psp_name : string;
  api_key_secret : option string;
  webhook_secret : option string;
  is_active : bool
}.

Record PspTransactionLog := {
  log_transaction_id : string;
  log_psp_name : string;
  request_payload : PaymentRequest;
  response_payload : StripeObject;
  status_code : Z;
  processing_time_ms : Z
}.

Record DB := {
  transactions : list Transaction;
  fees : list Fee;
  wallets : list Wallet;
  activity_logs : list ActivityLog;
  psp_configurations : list PspConfiguration;
  psp_transaction_logs : list PspTransactionLog
}.

Definition set_transactions (db : DB) (ts : list Transaction) : DB :=
  {| transactions := ts; fees := fees db; wallets := wallets db;
     activity_logs := activity_logs db;
     psp_configurations := psp_configurations db;
     psp_transaction_logs := psp_transaction_logs db |}.

Definition set_activity_logs (db : DB) (ls : list ActivityLog) : DB :=
  {| transactions := transactions db; fees := fees db; wallets := wallets db;
     activity_logs := ls;
     psp_configurations := psp_configurations db;
     psp_transaction_logs := psp_transaction_logs db |}.

Definition set_psp_transaction_logs (db : DB) (ls : list PspTransactionLog) : DB :=
  {| transactions := transactions db; fees := fees db; wallets := wallets db;
     activity_logs := activity_logs db;
     psp_configurations := psp_configurations db;
     psp_transaction_logs := ls |}.

(** [.single()]: the row when the query yields exactly one, else no data. *)
Definition single {A : Type} (rows : list A) : option A :=
  match rows with
  | [r] => Some r
  | _ => None
  end.

(** [from('psp_configurations').select(..).eq('psp_name', n).single()] *)
Definition select_psp_configuration (n : string) (db : DB) : option PspConfiguration :=
  single (filter (fun c => psp_name c =? n) (psp_configurations db)).

(** [.eq('gateway_transaction_id', ref)]: a row with a NULL column never
    matches. *)
Definition matches (ref : string) (t : Transaction) : bool :=
  match gateway_transaction_id t with
  | Some g => g =? ref
  | None => false
  end.

(** The columns a webhook update sets; [None] leaves a timestamp column
    as it is. *)
Record Patch := {
  p_status : string;
  p_gateway_response : StripeObject;
  p_settled_at : option string;
  p_refunded_at : option string
}.

Definition apply_patch (p : Patch) (t : Transaction) : Transaction :=
  {| tx_id := tx_id t; user_id := user_id t; amount := amount t;
     payment_method := payment_method t;
     payment_gateway := payment_gateway t;
     gateway_transaction_id := gateway_transaction_id t;
     gateway_response := Some (p_gateway_response p);
     status := p_status p;
     customer_name := customer_name t;
     customer_email := customer_email t;
     customer_document := customer_document t;
     description := description t;
     settled_at := match p_settled_at p with Some d => Some d | None => settled_at t end;
     refunded_at := match p_refunded_at p with Some d => Some d | None => refunded_at t end |}.

Section Constraints.

(** The table's row constraints. The handlers name columns
    ([gateway_transaction_id], [gateway_response], [settled_at]) that the
    schema file does not declare, so the constraint in force is taken as
    a parameter; [transactions_check] below is the one of the schema
    file. *)
Variable check : Transaction -> bool.

(** [from('transactions').update(p).eq('gateway_transaction_id', ref)]:
    one statement, so either every matching row is rewritten or, when a
    rewritten row violates a constraint, none is and an error comes
    back ([true]). *)
Definition update_transactions (p : Patch) (ref : string) (db : DB) : DB * bool :=
  if forallb (fun t => negb (matches ref t) || check (apply_patch p t)) (transactions db)
  then (set_transactions db
          (map (fun t => if matches ref t then apply_patch p t else t) (transactions db)),
        false)
  else (db, true).

(** [from('transactions').insert(row).select().single()] *)
Definition insert_transaction (row : Transaction) (db : DB) : DB * option Transaction :=
  if check row
  then (set_transactions db (transactions db ++ [row]), Some row)
  else (db, None).

End Constraints.

Definition insert_activity_log (l : ActivityLog) (db : DB) : DB :=
  set_activity_logs db (activity_logs db ++ [l]).

Definition insert_psp_transaction_log (l : PspTransactionLog) (db : DB) : DB :=
  set_psp_transaction_logs db (psp_transaction_logs db ++ [l]).

(** The [CHECK] constraints of the schema file's [transactions] table on
    the columns the handlers write: [amount > 0], the status set and the
    payment-method set. *)
Definition status_permitted (s : string) : bool :=
  existsb (String.eqb s)
    ["pending"; "processing"; "completed"; "failed"; "refunded"; "cancelled"].

Definition payment_method_permitted (s : string) : bool :=
  existsb (String.eqb s)
    ["credit_card"; "debit_card"; "pix"; "boleto"; "wallet"].

Definition transactions_check (t : Transaction) : bool :=
  (0 <? amount t)%float && status_permitted (status t)
  && payment_method_permitted (payment_method t).

(** A store that enforces no row constraint. *)
Definition no_check (t : Transaction) : bool := true.

End Db.

(** ** Handler computations

    A handler body reads and writes the store, and ends by producing a
    value, by throwing (to the handler's [catch]) or by returning a response
    from inside the [try]. Writes made before a throw stay. *)

Inductive outcome (A : Type) :=
| Done (a : A)
| Thrown (e : exn)
| Returned (r : Response).
Arguments Done {A} a.
Arguments Thrown {A} e.
Arguments Returned {A} r.

Definition Run (A : Type) : Type := Db.DB -> outcome A * Db.DB.

Definition ret {A : Type} (a : A) : Run A := fun db => (Done a, db).

Definition bind {A B : Type} (m : Run A) (k : A -> Run B) : Run B :=
  fun db =>
    match m db with
    | (Done a, db') => k a db'
    | (Thrown e, db') => (Thrown e, db')
    | (Returned r, db') => (Returned r, db')
    end.

Definition throw {A : Type} (e : exn) : Run A := fun db => (Thrown e, db).

(** A step that does not touch the store. *)
Definition pure {A : Type} (o : outcome A) : Run A := fun db => (o, db).

(** A call that returns or throws. *)
Definition lift {A : Type} (r : result A) : Run A :=
  match r with
  | Ok a => ret a
  | Raise e => throw e
  end.

(** A read of the store, and a write that yields a result. *)
Definition query {A : Type} (f : Db.DB -> A) : Run A := fun db => (Done (f db), db).

Definition exec {A : Type} (f : Db.DB -> Db.DB * A) : Run A :=
  fun db => let (db', a) := f db in (Done a, db').

Declare Scope run_scope.
Delimit Scope run_scope with run.
Notation "x <- m ;; k" := (bind m (fun x => k))
  (at level 100, m at next level, right associativity) : run_scope.
Notation "m ;; k" := (bind m (fun _ => k))
  (at level 100, right associativity) : run_scope.

(** [try { body } catch (error) { return new Response(.., {status}) }] *)
Definition try_catch (body : Run Response) (status : Z) (default : string)
    (db : Db.DB) : Response * Db.DB :=
  match body db with
  | (Done r, db') => (r, db')
  | (Returned r, db') => (r, db')
  | (Thrown e, db') => ({| resp_status := status; resp_body := ErrorBody e default |}, db')
  end.

(** ** [stripe-webhook/index.ts] *)

Module StripeWebhook.

Record Request := {
  method : string;
  stripe_signature : option string;
  body : string
}.

(** A decoded event: [event.id], [event.type] and [event.data.object],
    the last [None] when [event.data] or its [object] is missing, so that
    reading a property of it throws. *)
Record Event := {
  ev_id : string;
  ev_type : string;
  ev_data_object : option StripeObject
}.

(** What decoding the body yields: [null], on which [event.type] throws,
    or a value whose properties can be read. *)
Inductive Json :=
| JNull
| JEvent (e : Event).

Section Handler.

(** [stripe.webhooks.constructEvent(body, signature, secret)] of the
    provider SDK and [JSON.parse(body)] of the engine. *)
Variable constructEvent : string -> string -> string -> result Json.
Variable JSON_parse : string -> result Json.
(** The row constraint of [transactions]. *)
Variable check : Db.Transaction -> bool.

Local Open Scope run_scope.

Definition data_object (e : Event) : Run StripeObject :=
  match ev_data_object e with
  | Some o => ret o
  | None => throw TypeError
  end.

(** [switch (event.type) { ... }]: an update's error is logged and
    nothing else. *)
Definition process_event (e : Event) (now : string) : Run unit :=
  if ev_type e =? "payment_intent.succeeded" then
    paymentIntent <- data_object e ;;
    exec (Db.update_transactions check
            {| Db.p_status := "paid";
               Db.p_gateway_response := paymentIntent;
               Db.p_settled_at := Some now;
               Db.p_refunded_at := None |}
            (obj_id paymentIntent)) ;;
    ret tt
  else if ev_type e =? "payment_intent.payment_failed" then
    paymentIntent <- data_object e ;;
    exec (Db.update_transactions check
            {| Db.p_status := "failed";
               Db.p_gateway_response := paymentIntent;
               Db.p_settled_at := None;
               Db.p_refunded_at := None |}
            (obj_id paymentIntent)) ;;
    ret tt
  else if ev_type e =? "payment_intent.canceled" then
    paymentIntent <- data_object e ;;
    exec (Db.update_transactions check
            {| Db.p_status := "cancelled";
               Db.p_gateway_response := paymentIntent;
               Db.p_settled_at := None;
               Db.p_refunded_at := None |}
            (obj_id paymentIntent)) ;;
    ret tt
  else if ev_type e =? "charge.refunded" then
    charge <- data_object e ;;
    exec (Db.update_transactions check
            {| Db.p_status := "refunded";
               Db.p_gateway_response := charge;
               Db.p_settled_at := None;
               Db.p_refunded_at := Some now |}
            (obj_payment_intent charge)) ;;
    ret tt
  else if ev_type e =? "charge.dispute.created" then
    dispute <- data_object e ;;
    exec (Db.update_transactions check
            {| Db.p_status := "chargeback";
               Db.p_gateway_response := dispute;
               Db.p_settled_at := None;
               Db.p_refunded_at := None |}
            (obj_payment_intent dispute)) ;;
    ret tt
  else ret tt.

(** "Verificar assinatura do webhook se webhook_secret estiver
    configurado": verification when both the configured secret and the
    signature header are truthy, a plain parse of the body otherwise.
    A failed verification returns the 400 response. *)
Definition decode (config : Db.PspConfiguration) (req : Request) : outcome Json :=
  if Js.truthy (Db.webhook_secret config) && Js.truthy (stripe_signature req) then
    match constructEvent (body req) (Js.or_else (stripe_signature req) "")
            (Js.or_else (Db.webhook_secret config) "") with
    | Ok event => Done event
    | Raise _ =>
        Returned {| resp_status := 400; resp_body := InvalidSignatureBody |}
    end
  else
    match JSON_parse (body req) with
    | Ok event => Done event
    | Raise e => Thrown e
    end.

(** The configuration row the handler goes on with:
    [!stripeConfig || !stripeConfig.api_key_secret] throws. *)
Definition configuration : Run Db.PspConfiguration :=
  stripeConfig <- query (Db.select_psp_configuration "stripe") ;;
  match stripeConfig with
  | Some c =>
      if Js.truthy (Db.api_key_secret c) then ret c
      else throw (Error "Stripe não está configurado")
  | None => throw (Error "Stripe não está configurado")
  end.

(** From the log line after decoding to the 200 response: the switch,
    the [activity_logs] row and the acknowledgement. *)
Definition process (json : Json) (now : string) : Run Response :=
  event <- match json with
           | JEvent e => ret e
           | JNull => throw TypeError
           end ;;
  process_event event now ;;
  exec (fun db =>
          (Db.insert_activity_log
             {| Db.action := "stripe_webhook";
                Db.resource_type := "webhook";
                Db.event_type := ev_type event;
                Db.event_id := ev_id event |} db, tt)) ;;
  ret {| resp_status := 200; resp_body := ReceivedBody |}.

(** The body of the [try] block; [now] is what [new Date()] reads. *)
Definition handle (req : Request) (now : string) : Run Response :=
  config <- configuration ;;
  json <- pure (decode config req) ;;
  process json now.

(** The function given to [Deno.serve]. *)
Definition serve (req : Request) (now : string) (db : Db.DB) : Response * Db.DB :=
  if method req =? "OPTIONS" then
    ({| resp_status := 200; resp_body := NoBody |}, db)
  else try_catch (handle req now) 500 "Erro ao processar webhook" db.

End Handler.

End StripeWebhook.

(** ** [create-payment-stripe/index.ts] *)

Module CreatePayment.

Record Request := {
  method : string;
  Authorization : option string;
  (** what [req.json()] yields *)
  json : result PaymentRequest
}.

Record User := { id : string }.

Record StripeCustomer := { customer_id : string }.

Record CustomerParams := {
  cp_email : string;
  cp_name : string;
  cp_document : string;
  cp_phone : string
}.

Record IntentParams := {
  ip_amount : Js.number;
  currency : string;
  ip_customer : string;
  ip_description : string;
  ip_payment_method : option string;
  confirm : bool;
  automatic_payment_methods : option bool;
  metadata_user_id : string;
  metadata_customer_document : string
}.

(** The provider SDK client: each call returns or throws. *)
Record Stripe := {
  customers_list : string -> result (list StripeCustomer);
  customers_create : CustomerParams -> result StripeCustomer;
  paymentIntents_create : IntentParams -> result StripeObject
}.

(** "Determinar status da transação": the chain of comparisons on
    [paymentIntent.status], starting from ['pending']. *)
Definition transactionStatus (intent_status : string) : string :=
  if intent_status =? "succeeded" then "paid"
  else if intent_status =? "processing" then "processing"
  else if (intent_status =? "requires_payment_method")
          || (intent_status =? "requires_confirmation") then "pending"
  else if intent_status =? "canceled" then "cancelled"
  else if intent_status =? "payment_failed" then "failed"
  else "pending".

(** The amount handed to the provider: [Math.round(amount * 100)]. *)
Definition intent_amount (amount : Js.number) : Js.number :=
  Js.Math_round (amount * 100)%float.

Section Handler.

(** [supabase.auth.getUser(token)]: the user, or [None] on an error or
    no user. *)
Variable getUser : string -> option User.
(** [new Stripe(api_key_secret, ..)] *)
Variable new_Stripe : string -> Stripe.
(** The row constraint of [transactions]. *)
Variable check : Db.Transaction -> bool.

Local Open Scope run_scope.

Definition the_customer (r : PaymentRequest) : Run Customer :=
  match customer r with
  | Some c => ret c
  | None => throw TypeError
  end.

Definition intent_params (r : PaymentRequest) (c : Customer)
    (user : User) (stripeCustomer : StripeCustomer) : IntentParams :=
  {| ip_amount := intent_amount (pr_amount r);
     currency := "brl";
     ip_customer := customer_id stripeCustomer;
     ip_description := Js.or_else (pr_description r) "Pagamento";
     ip_payment_method := payment_method_id r;
     confirm := Js.truthy (payment_method_id r);
     automatic_payment_methods :=
       if Js.truthy (payment_method_id r) then None else Some true;
     metadata_user_id := id user;
     metadata_customer_document := document c |}.

Definition transaction_row (new_id : string) (r : PaymentRequest)
    (c : Customer) (user : User) (paymentIntent : StripeObject)
    : Db.Transaction :=
  {| Db.tx_id := new_id;
     Db.user_id := id user;
     Db.amount := pr_amount r;
     Db.payment_method := pr_payment_method r;
     Db.payment_gateway := "stripe";
     Db.gateway_transaction_id := Some (obj_id paymentIntent);
     Db.gateway_response := Some paymentIntent;
     Db.status := transactionStatus (obj_status paymentIntent);
     Db.customer_name := name c;
     Db.customer_email := email c;
     Db.customer_document := document c;
     Db.description := Js.or_else (pr_description r) "Pagamento";
     Db.settled_at := None;
     Db.refunded_at := None |}.

(** The body of the [try] block. [new_id] is the key the store gives
    the new row; [startTime] and [endTime] are the two readings of
    [Date.now()]. *)
Definition handle (req : Request) (new_id : string) (startTime endTime : Z)
    : Run Response :=
  authHeader <- (if Js.truthy (Authorization req)
                 then ret (Js.or_else (Authorization req) "")
                 else throw (Error "Token de autenticação não fornecido")) ;;
  user <- match getUser (Js.replace "Bearer " "" authHeader) with
          | Some u => ret u
          | None => throw (Error "Usuário não autenticado")
          end ;;
  stripeConfig <- query (Db.select_psp_configuration "stripe") ;;
  config <- match stripeConfig with
            | Some c =>
                if Db.is_active c then ret c
                else throw (Error "Stripe não está configurado ou ativo")
            | None => throw (Error "Stripe não está configurado ou ativo")
            end ;;
  key <- (if Js.truthy (Db.api_key_secret config)
          then ret (Js.or_else (Db.api_key_secret config) "")
          else throw (Error "Chave secreta do Stripe não configurada")) ;;
  let stripe := new_Stripe key in
  paymentRequest <- lift (json req) ;;
  c <- the_customer paymentRequest ;;
  existingCustomers <- lift (customers_list stripe (email c)) ;;
  stripeCustomer <- match existingCustomers with
                    | first :: _ => ret first
                    | [] =>
                        lift (customers_create stripe
                                {| cp_email := email c;
                                   cp_name := name c;
                                   cp_document := document c;
                                   cp_phone := Js.or_else (phone c) "" |})
                    end ;;
  paymentIntent <- lift (paymentIntents_create stripe
                           (intent_params paymentRequest c user stripeCustomer)) ;;
  inserted <- exec (Db.insert_transaction check
                      (transaction_row new_id paymentRequest c user paymentIntent)) ;;
  transaction <- match inserted with
                 | Some t => ret t
                 | None => throw (Error "Erro ao salvar transação no banco de dados")
                 end ;;
  exec (fun db =>
          (Db.insert_psp_transaction_log
             {| Db.log_transaction_id := Db.tx_id transaction;
                Db.log_psp_name := "stripe";
                Db.request_payload := paymentRequest;
                Db.response_payload := paymentIntent;
                Db.status_code := 200;
                Db.processing_time_ms := endTime - startTime |} db, tt)) ;;
  ret {| resp_status := 200;
         resp_body :=
           PaymentBody (Db.tx_id transaction) (obj_id paymentIntent)
             (obj_client_secret paymentIntent)
             (transactionStatus (obj_status paymentIntent))
             (pr_amount paymentRequest) (pr_payment_method paymentRequest) |}.

(** The function given to [Deno.serve]. *)
Definition serve (req : Request) (new_id : string) (startTime endTime : Z)
    (db : Db.DB) : Response * Db.DB :=
  if method req =? "OPTIONS" then
    ({| resp_status := 200; resp_body := NoBody |}, db)
  else try_catch (handle req new_id startTime endTime) 400
         "Erro ao processar pagamento" db.

End Handler.

End CreatePayment.

(** ** The specification's rules the handlers are compared with *)

Module Spec.

(** The listed edges of the transaction state machine (section 4.2 of the
    specification): [pending -> processing -> paid],
    [pending -> processing -> failed], [pending -> cancelled],
    [paid -> refunded], [paid -> chargeback]. *)
Definition edges : list (string * string) :=
  [("pending", "processing"); ("processing", "paid"); ("processing", "failed");
   ("pending", "cancelled"); ("paid", "refunded"); ("paid", "chargeback")].

Definition edge (s t : string) : bool :=
  existsb (fun e => (fst e =? s) && (snd e =? t)) edges.

(** The specification's fee rule: [amount * rate] in minor units, rounded
    half-up, for a rate [num / den]; and the net amount. *)
Definition fee (amount num den : Z) : Z :=
  ((2 * amount * num + den) / (2 * den))%Z.

Definition net (amount num den : Z) : Z := (amount - fee amount num den)%Z.

End Spec.

(** Modelled from the spec: the Outbound Webhook Dispatcher (sections 4.4
    and 5), which is not among the source files; only its table
    [webhook_deliveries] is. For one (endpoint, event) pair the dispatcher
    attempts delivery, records each attempt with its response status, marks
    the delivery delivered on any 2xx response, and otherwise retries after a
    bounded exponential backoff up to a maximum attempt count; no attempt is
    issued once the endpoint is deactivated. *)
Module Dispatcher.

(** The per-endpoint retry policy: the maximum attempt count, the backoff
    base and the bound on a backoff delay. *)
Record RetryPolicy := {
  max_attempts : nat;
  backoff_base : Z;
  backoff_cap : Z
}.

(** The delay scheduled after the [n]-th attempt failed. *)
Definition backoff (p : RetryPolicy) (n : nat) : Z :=
  Z.min (backoff_cap p) (backoff_base p * 2 ^ Z.of_nat (n - 1))%Z.

(** One recorded attempt; no response status on a network failure or a
    timeout. *)
Record Attempt := {
  number : nat;
  issued_at : Z;
  response_status : option Z
}.

Definition is_2xx (r : option Z) : bool :=
  match r with
  | Some c => ((200 <=? c) && (c <? 300))%Z
  | None => false
  end.

(** The delivery bookkeeping: the attempts in the order they were
    recorded and the [delivered] flag of [webhook_deliveries]. *)
Record Delivery := {
  history : list Attempt;
  delivered : bool
}.

(** The [attempts] column. *)
Definition attempts (d : Delivery) : nat := List.length (history d).

Section Endpoint.

Variable policy : RetryPolicy.
(** The endpoint's answer to the [n]-th attempt. *)
Variable respond : nat -> option Z.
(** Whether the endpoint is active when the [n]-th attempt is due. *)
Variable active : nat -> bool.

Fixpoint attempt_from (remaining n : nat) (time : Z) (h : list Attempt) : Delivery :=
  match remaining with
  | O => {| history := h; delivered := false |}
  | S rest =>
      if active n then
        let h' := (h ++ [{| number := n; issued_at := time;
                            response_status := respond n |}])%list in
        if is_2xx (respond n) then {| history := h'; delivered := true |}
        else attempt_from rest (S n) (time + backoff policy n)%Z h'
      else {| history := h; delivered := false |}
  end.

Definition dispatch (start : Z) : Delivery :=
  attempt_from (max_attempts policy) 1 start [].

End Endpoint.

End Dispatcher.

(** ** Sample stores, requests and collaborators *)

Module Sample.

Import StripeWebhook.

Definition intent (i st : string) : StripeObject :=
  {| obj_id := i; obj_payment_intent := i; obj_status := st;
     obj_client_secret := Some "secret" |}.

Definition tx (i gid st : string) (a : Js.number) : Db.Transaction :=
  {| Db.tx_id := i; Db.user_id := "merchant"; Db.amount := a;
     Db.payment_method := "credit_card"; Db.payment_gateway := "stripe";
     Db.gateway_transaction_id := Some gid; Db.gateway_response := None;
     Db.status := st; Db.customer_name := "Ana";
     Db.customer_email := "ana@example.com"; Db.customer_document := "123";
     Db.description := "Pagamento"; Db.settled_at := None;
     Db.refunded_at := None |}.

Definition config (secret : option string) : Db.PspConfiguration :=
  {| Db.psp_name := "stripe"; Db.api_key_secret := Some "sk_test";
     Db.webhook_secret := secret; Db.is_active := true |}.

Definition wallet : Db.Wallet :=
  {| Db.wallet_user_id := "merchant"; Db.balance := 0%float;
     Db.pending_balance := 0%float; Db.blocked_balance := 0%float |}.

(** A store with one transaction of provider reference [pi_1]. *)
Definition store (st : string) (secret : option string) : Db.DB :=
  {| Db.transactions := [tx "tx_1" "pi_1" st 10000%float];
     Db.fees := []; Db.wallets := [wallet]; Db.activity_logs := [];
     Db.psp_configurations := [config secret];
     Db.psp_transaction_logs := [] |}.


Definition event (i type ref : string) : Event :=
  {| ev_id := i; ev_type := type; ev_data_object := Some (intent ref "") |}.

(** A decoder defined on the bodies the examples send. *)
Definition JSON_parse (body : string) : result Json :=
  if body =? "succeeded pi_1" then
    Ok (JEvent (event "evt_1" "payment_intent.succeeded" "pi_1"))
  else if body =? "payment_failed pi_1" then
    Ok (JEvent (event "evt_2" "payment_intent.payment_failed" "pi_1"))
  else if body =? "succeeded pi_9" then
    Ok (JEvent (event "evt_3" "payment_intent.succeeded" "pi_9"))
  else if body =? "refunded pi_1" then
    Ok (JEvent (event "evt_4" "charge.refunded" "pi_1"))
  else if body =? "null" then Ok JNull
  else Raise SyntaxError.

(** A verifier that accepts the signature ["v1=" ++ secret]. *)
Definition constructEvent (body signature secret : string) : result Json :=
  if signature =? "v1=" ++ secret then JSON_parse body
  else Raise (ProviderError "No signatures found matching the expected signature for payload").

Definition post (sig : option string) (body : string) : Request :=
  {| method := "POST"; stripe_signature := sig; body := body |}.

(** Collaborators of the create-payment handler: a user for the token
    [tok], no known customer, and an intent [pi_new] in the status [st]. *)
Definition getUser (token : string) : option CreatePayment.User :=
  if token =? "tok" then Some {| CreatePayment.id := "merchant" |} else None.

Definition new_Stripe (st : string) (key : string) : CreatePayment.Stripe :=
  {| CreatePayment.customers_list := fun _ => Ok [];
     CreatePayment.customers_create :=
       fun _ => Ok {| CreatePayment.customer_id := "cus_1" |};
     CreatePayment.paymentIntents_create := fun _ => Ok (intent "pi_new" st) |}.

Definition payment (a : Js.number) : CreatePayment.Request :=
  {| CreatePayment.method := "POST";
     CreatePayment.Authorization := Some "Bearer tok";
     CreatePayment.json :=
       Ok {| pr_amount := a; pr_payment_method := "credit_card";
             customer := Some {| name := "Ana"; email := "ana@example.com";
                                 document := "123"; phone := None |};
             pr_description := None; payment_method_id := None |} |}.

End Sample.

(** ** Further sample data *)

Module Scenario.

(** A decoder for bodies of the form of [Sample.JSON_parse], and for an
    event type the switch has no case for, an event without [data], and a
    cancellation of the intent [pi_new]. *)
Definition JSON_parse (body : string) : result StripeWebhook.Json :=
  if body =? "customer.created" then
    Ok (StripeWebhook.JEvent
          {| StripeWebhook.ev_id := "evt_5";
             StripeWebhook.ev_type := "customer.created";
             StripeWebhook.ev_data_object := None |})
  else if body =? "canceled pi_new" then
    Ok (StripeWebhook.JEvent
          (Sample.event "evt_6" "payment_intent.canceled" "pi_new"))
  else Sample.JSON_parse body.

(** A store with two configuration rows for the provider. *)
Definition doubly_configured : Db.DB :=
  {| Db.transactions := [Sample.tx "tx_1" "pi_1" "pending" 10000%float];
     Db.fees := []; Db.wallets := [Sample.wallet]; Db.activity_logs := [];
     Db.psp_configurations := [Sample.config None; Sample.config (Some "whsec")];
     Db.psp_transaction_logs := [] |}.

(** A payment request with the given [Authorization] header. *)
Definition payment_with (header : option string) : CreatePayment.Request :=
  {| CreatePayment.method := "POST";
     CreatePayment.Authorization := header;
     CreatePayment.json := CreatePayment.json (Sample.payment 10.5%float) |}.

End Scenario.

(** ** Vocabulary of the properties *)

Import StripeWebhook.

(** The switch read as a table: the columns a handled event type sets and
    the provider reference it filters on; [None] for the [default] case.
    [process_event_table] below proves that [process_event] is this
    table. *)
Definition patch_for (type : string) (o : StripeObject) (now : string)
    : option (Db.Patch * string) :=
  if type =? "payment_intent.succeeded" then
    Some ({| Db.p_status := "paid"; Db.p_gateway_response := o;
             Db.p_settled_at := Some now; Db.p_refunded_at := None |}, obj_id o)
  else if type =? "payment_intent.payment_failed" then
    Some ({| Db.p_status := "failed"; Db.p_gateway_response := o;
             Db.p_settled_at := None; Db.p_refunded_at := None |}, obj_id o)
  else if type =? "payment_intent.canceled" then
    Some ({| Db.p_status := "cancelled"; Db.p_gateway_response := o;
             Db.p_settled_at := None; Db.p_refunded_at := None |}, obj_id o)
  else if type =? "charge.refunded" then
    Some ({| Db.p_status := "refunded"; Db.p_gateway_response := o;
             Db.p_settled_at := None; Db.p_refunded_at := Some now |},
          obj_payment_intent o)
  else if type =? "charge.dispute.created" then
    Some ({| Db.p_status := "chargeback"; Db.p_gateway_response := o;
             Db.p_settled_at := None; Db.p_refunded_at := None |},
          obj_payment_intent o)
  else None.

(** The event types the switch has a case for. *)
Definition handled (type : string) : bool :=
  existsb (String.eqb type)
    ["payment_intent.succeeded"; "payment_intent.payment_failed";
     "payment_intent.canceled"; "charge.refunded"; "charge.dispute.created"].

(** The configuration row [configuration] yields on a store, if any. *)
Definition configured (db : Db.DB) : option Db.PspConfiguration :=
  match Db.select_psp_configuration "stripe" db with
  | Some c => if Js.truthy (Db.api_key_secret c) then Some c else None
  | None => None
  end.

(** The responses of the webhook endpoint: the one of the [catch] block for
    a missing configuration, and the acknowledgement. *)
Definition unconfigured_response : Response :=
  {| resp_status := 500;
     resp_body := ErrorBody (Error "Stripe não está configurado")
                    "Erro ao processar webhook" |}.

Definition received : Response :=
  {| resp_status := 200; resp_body := ReceivedBody |}.

(** The [activity_logs] row of an event. *)
Definition log_of (e : Event) : Db.ActivityLog :=
  {| Db.action := "stripe_webhook"; Db.resource_type := "webhook";
     Db.event_type := ev_type e; Db.event_id := ev_id e |}.


(** A row without its two time stamps. *)
Definition unstamp (t : Db.Transaction) : Db.Transaction :=
  {| Db.tx_id := Db.tx_id t; Db.user_id := Db.user_id t; Db.amount := Db.amount t;
     Db.payment_method := Db.payment_method t;
     Db.payment_gateway := Db.payment_gateway t;
     Db.gateway_transaction_id := Db.gateway_transaction_id t;
     Db.gateway_response := Db.gateway_response t;
     Db.status := Db.status t;
     Db.customer_name := Db.customer_name t;
     Db.customer_email := Db.customer_email t;
     Db.customer_document := Db.customer_document t;
     Db.description := Db.description t;
     Db.settled_at := None; Db.refunded_at := None |}.

(** A row constraint that does not read the time stamps. *)
Definition ignores_stamps (check : Db.Transaction -> bool) : Prop :=
  forall t t', unstamp t = unstamp t' -> check t = check t'.

(** What one request comes to, given the configuration row found: a reply
    that leaves the store alone, or an event that is applied, logged and
    acknowledged. *)
Inductive verdict :=
| Reply (r : Response)
| Apply (e : Event).

(** The response of the [catch] block to the error [e]. *)
Definition failure (e : exn) : Response :=
  {| resp_status := 500; resp_body := ErrorBody e "Erro ao processar webhook" |}.

(** The table after an update the store accepts. *)
Definition rewritten (p : Db.Patch) (ref : string) (ts : list Db.Transaction)
    : list Db.Transaction :=
  map (fun t => if Db.matches ref t then Db.apply_patch p t else t) ts.

Section Vocabulary.

Variable constructEvent : string -> string -> string -> result Json.
Variable JSON_parse : string -> result Json.
Variable check : Db.Transaction -> bool.

(** The verdict on a request, read off the handler's branches. *)
Definition verdict_of (req : Request) (cfg : option Db.PspConfiguration) : verdict :=
  if method req =? "OPTIONS" then Reply {| resp_status := 200; resp_body := NoBody |}
  else
    match cfg with
    | None => Reply unconfigured_response
    | Some c =>
        match decode constructEvent JSON_parse c req with
        | Returned r => Reply r
        | Thrown e => Reply (failure e)
        | Done JNull => Reply (failure TypeError)
        | Done (JEvent e) =>
            match ev_data_object e with
            | Some _ => Apply e
            | None => if handled (ev_type e) then Reply (failure TypeError) else Apply e
            end
        end
    end.

(** The rows an update leaves. *)
Definition updated_rows (p : Db.Patch) (ref : string) (ts : list Db.Transaction)
    : list Db.Transaction :=
  if forallb (fun t => negb (Db.matches ref t) || check (Db.apply_patch p t)) ts
  then rewritten p ref ts else ts.

(** The rows an applied event leaves. *)
Definition applied_rows (e : Event) (now : string) (ts : list Db.Transaction)
    : list Db.Transaction :=
  match ev_data_object e with
  | Some o =>
      match patch_for (ev_type e) o now with
      | Some (p, ref) => updated_rows p ref ts
      | None => ts
      end
  | None => ts
  end.

(** The store after an applied event: the rows of the update, one more
    [activity_logs] row, every other table as it was. *)
Definition applied (e : Event) (now : string) (db : Db.DB) : Db.DB :=
  Db.insert_activity_log (log_of e)
    (Db.set_transactions db (applied_rows e now (Db.transactions db))).




End Vocabulary.

(** ** The create-payment handler up to its first write *)

(** What the handler holds when it reaches the insert: the authenticated
    user, the decoded request and its customer, the provider's customer and
    the payment intent the provider created. *)
Record Prepared := {
  the_user : CreatePayment.User;
  the_request : PaymentRequest;
  the_payer : Customer;
  the_stripe_customer : CreatePayment.StripeCustomer;
  the_intent : StripeObject
}.

Section Preparation.

Variable getUser : string -> option CreatePayment.User.
Variable new_Stripe : string -> CreatePayment.Stripe.

(** The provider's customer for a payer: the first one listed for the
    e-mail address, a new one when none is listed. *)
Definition resolve_customer (stripe : CreatePayment.Stripe) (c : Customer)
    : result CreatePayment.StripeCustomer :=
  match CreatePayment.customers_list stripe (email c) with
  | Raise e => Raise e
  | Ok (first :: _) => Ok first
  | Ok [] =>
      CreatePayment.customers_create stripe
        {| CreatePayment.cp_email := email c; CreatePayment.cp_name := name c;
           CreatePayment.cp_document := document c;
           CreatePayment.cp_phone := Js.or_else (phone c) "" |}
  end.

(** The steps of the handler before the insert, in the order of the source:
    none of them writes to the store. [create_payment_steps] below proves that
    the handler is these steps followed by the two inserts. *)
Definition prepare (req : CreatePayment.Request) (db : Db.DB) : result Prepared :=
  if Js.truthy (CreatePayment.Authorization req) then
    match getUser (Js.replace "Bearer " "" (Js.or_else (CreatePayment.Authorization req) "")) with
    | None => Raise (Error "Usuário não autenticado")
    | Some user =>
        match Db.select_psp_configuration "stripe" db with
        | None => Raise (Error "Stripe não está configurado ou ativo")
        | Some cfg =>
            if Db.is_active cfg then
              if Js.truthy (Db.api_key_secret cfg) then
                let stripe := new_Stripe (Js.or_else (Db.api_key_secret cfg) "") in
                match CreatePayment.json req with
                | Raise e => Raise e
                | Ok r =>
                    match customer r with
                    | None => Raise TypeError
                    | Some c =>
                        match resolve_customer stripe c with
                        | Raise e => Raise e
                        | Ok sc =>
                            match CreatePayment.paymentIntents_create stripe
                                    (CreatePayment.intent_params r c user sc) with
                            | Raise e => Raise e
                            | Ok intent =>
                                Ok {| the_user := user; the_request := r;
                                      the_payer := c; the_stripe_customer := sc;
                                      the_intent := intent |}
                            end
                        end
                    end
                end
              else Raise (Error "Chave secreta do Stripe não configurada")
            else Raise (Error "Stripe não está configurado ou ativo")
        end
    end
  else Raise (Error "Token de autenticação não fornecido").

End Preparation.

(** The row, the log entry and the response of a prepared request. *)
Definition prepared_row (new_id : string) (pr : Prepared) : Db.Transaction :=
  CreatePayment.transaction_row new_id (the_request pr) (the_payer pr)
    (the_user pr) (the_intent pr).

Definition prepared_log (new_id : string) (startTime endTime : Z) (pr : Prepared)
    : Db.PspTransactionLog :=
  {| Db.log_transaction_id := new_id; Db.log_psp_name := "stripe";
     Db.request_payload := the_request pr; Db.response_payload := the_intent pr;
     Db.status_code := 200; Db.processing_time_ms := endTime - startTime |}.

Definition prepared_response (new_id : string) (pr : Prepared) : Response :=
  {| resp_status := 200;
     resp_body :=
       PaymentBody new_id (obj_id (the_intent pr)) (obj_client_secret (the_intent pr))
         (CreatePayment.transactionStatus (obj_status (the_intent pr)))
         (pr_amount (the_request pr)) (pr_payment_method (the_request pr)) |}.

(** The response of the create-payment [catch] block to the error [e]. *)
Definition payment_failure (e : exn) : Response :=
  {| resp_status := 400; resp_body := ErrorBody e "Erro ao processar pagamento" |}.

(** ** The schema file: admin roles, the wallet trigger, row-level security *)

Module Schema.

(** A row of [admin_roles]: the user and the role, one of [super_admin],
    [admin] and [support]. *)
Record AdminRole := {
  admin_user_id : string;
  role : string
}.

(** [is_admin(user_id_param)]: a row of [admin_roles] exists for the
    user. *)
Definition is_admin (admin_roles : list AdminRole) (user_id_param : string) : bool :=
  existsb (fun r => admin_user_id r =? user_id_param) admin_roles.

(** [is_super_admin(user_id_param)]: a row with the role [super_admin]
    exists for the user. *)
Definition is_super_admin (admin_roles : list AdminRole) (user_id_param : string)
    : bool :=
  existsb (fun r => (admin_user_id r =? user_id_param) && (role r =? "super_admin"))
    admin_roles.

(** The users of [auth.users] with the two tables that refer to them
    [NOT NULL UNIQUE] and [ON DELETE CASCADE]. *)
Record State := {
  users : list string;
  wallets : list Db.Wallet;
  admin_roles : list AdminRole
}.

(** The [CHECK] constraints of [wallets]. *)
Definition wallet_check (w : Db.Wallet) : bool :=
  (0 <=? Db.balance w)%float && (0 <=? Db.pending_balance w)%float
  && (0 <=? Db.blocked_balance w)%float.

(** [INSERT INTO wallets]: refused when a [CHECK] fails or the user already
    has a wallet ([UNIQUE]). *)
Definition insert_wallet (w : Db.Wallet) (ws : list Db.Wallet) : option (list Db.Wallet) :=
  if wallet_check w
     && negb (existsb (fun w' => Db.wallet_user_id w' =? Db.wallet_user_id w) ws)
  then Some (ws ++ [w])%list else None.

(** The trigger function [create_user_wallet()], on the new user's id. *)
Definition create_user_wallet (NEW_id : string) (ws : list Db.Wallet)
    : option (list Db.Wallet) :=
  insert_wallet
    {| Db.wallet_user_id := NEW_id; Db.balance := 0%float;
       Db.pending_balance := 0%float; Db.blocked_balance := 0%float |} ws.

(** An insert into [auth.users] with the trigger [create_wallet_on_signup]
    that runs after it: the statement fails as a whole when the key exists or
    the trigger's insert is refused. *)
Definition signup (id : string) (st : State) : option State :=
  if existsb (String.eqb id) (users st) then None
  else
    match create_user_wallet id (wallets st) with
    | Some ws =>
        Some {| users := (users st ++ [id])%list; wallets := ws;
                admin_roles := admin_roles st |}
    | None => None
    end.

(** A delete from [auth.users]: the user's wallet and role rows go with
    it. *)
Definition delete_user (id : string) (st : State) : State :=
  {| users := filter (fun u => negb (u =? id)) (users st);
     wallets := filter (fun w => negb (Db.wallet_user_id w =? id)) (wallets st);
     admin_roles := filter (fun r => negb (admin_user_id r =? id)) (admin_roles st) |}.

(** The states reached from the empty tables by sign-ups and deletions of
    users. *)
Inductive reachable : State -> Prop :=
| reach_empty : reachable {| users := []; wallets := []; admin_roles := [] |}
| reach_signup (id : string) (st st' : State) :
    reachable st -> signup id st = Some st' -> reachable st'
| reach_delete (id : string) (st : State) :
    reachable st -> reachable (delete_user id st).

(** The wallets of a user. *)
Definition wallets_of (id : string) (st : State) : list Db.Wallet :=
  filter (fun w => Db.wallet_user_id w =? id) (wallets st).

End Schema.

Module Rls.

Inductive Role := anon | authenticated.

(** Who runs a statement: [auth.uid()] is the user of an authenticated
    session and NULL otherwise. *)
Inductive Session :=
| Anon
| Authenticated (uid : string).

Definition role_of (s : Session) : Role :=
  match s with
  | Anon => anon
  | Authenticated _ => authenticated
  end.

(** [auth.uid()] *)
Definition auth_uid (s : Session) : option string :=
  match s with
  | Anon => None
  | Authenticated uid => Some uid
  end.

Definition role_eqb (a b : Role) : bool :=
  match a, b with
  | anon, anon | authenticated, authenticated => true
  | _, _ => false
  end.

(** A policy expression: it reads [admin_roles] (through [is_admin] and
    [is_super_admin]), [auth.uid()] and the row. *)
Definition Expr (Row : Type) : Type :=
  list Schema.AdminRole -> option string -> Row -> bool.

(** [CREATE POLICY ... FOR <command> TO <roles> USING (..) WITH CHECK (..)],
    with the clauses each policy of the schema file has. *)
Inductive Policy (Row : Type) :=
| ForSelect (to_roles : list Role) (using_expr : Expr Row)
| ForInsert (to_roles : list Role) (check_expr : Expr Row)
| ForUpdate (to_roles : list Role) (using_expr check_expr : Expr Row)
| ForDelete (to_roles : list Role) (using_expr : Expr Row)
| ForAll (to_roles : list Role) (using_expr check_expr : Expr Row).
Arguments ForSelect {Row} to_roles using_expr.
Arguments ForInsert {Row} to_roles check_expr.
Arguments ForUpdate {Row} to_roles using_expr check_expr.
Arguments ForDelete {Row} to_roles using_expr.
Arguments ForAll {Row} to_roles using_expr check_expr.

Section Evaluation.

Variable Row : Type.
Variable policies : list (Policy Row).
Variable admin_roles : list Schema.AdminRole.

(** A policy applies to the roles it names, and its expression is
    evaluated with the session's [auth.uid()]. *)
Definition holds (s : Session) (to : list Role) (e : Expr Row) (r : Row) : bool :=
  existsb (role_eqb (role_of s)) to && e admin_roles (auth_uid s) r.

(** Row-level security is enabled on every table: a row is visible to a
    command, or a new row accepted, when one of the policies for the command
    says so. [insert_allowed] is for an insert that returns nothing. *)
Definition select_visible (s : Session) (r : Row) : bool :=
  existsb (fun p => match p with
                    | ForSelect to u | ForAll to u _ => holds s to u r
                    | _ => false
                    end) policies.

Definition insert_allowed (s : Session) (new : Row) : bool :=
  existsb (fun p => match p with
                    | ForInsert to c | ForAll to _ c => holds s to c new
                    | _ => false
                    end) policies.

Definition update_targets (s : Session) (old : Row) : bool :=
  existsb (fun p => match p with
                    | ForUpdate to u _ | ForAll to u _ => holds s to u old
                    | _ => false
                    end) policies.

Definition update_accepts (s : Session) (new : Row) : bool :=
  existsb (fun p => match p with
                    | ForUpdate to _ c | ForAll to _ c => holds s to c new
                    | _ => false
                    end) policies.

(** An update of [old] into [new] by a statement that reads the row: the
    old and the new row must be visible, the old row a target of an update
    policy, and the new row must pass a check. *)
Definition update_allowed (s : Session) (old new : Row) : bool :=
  select_visible s old && update_targets s old && update_accepts s new
  && select_visible s new.

(** A delete by a statement that reads the row. *)
Definition delete_allowed (s : Session) (old : Row) : bool :=
  select_visible s old
  && existsb (fun p => match p with
                       | ForDelete to u | ForAll to u _ => holds s to u old
                       | _ => false
                       end) policies.

End Evaluation.

(** The expressions of the policies. A comparison with a NULL [auth.uid()]
    is not true, and no [admin_roles] row has a NULL user. *)
Definition own {Row : Type} (owner : Row -> string) : Expr Row :=
  fun _ uid r =>
    match uid with
    | Some u => u =? owner r
    | None => false
    end.

Definition admin_only {Row : Type} : Expr Row :=
  fun admin_roles uid _ =>
    match uid with
    | Some u => Schema.is_admin admin_roles u
    | None => false
    end.

Definition super_admin_only {Row : Type} : Expr Row :=
  fun admin_roles uid _ =>
    match uid with
    | Some u => Schema.is_super_admin admin_roles u
    | None => false
    end.

(** [auth.uid() = user_id OR is_admin(auth.uid())] *)
Definition own_or_admin {Row : Type} (owner : Row -> string) : Expr Row :=
  fun admin_roles uid r => own owner admin_roles uid r || admin_only admin_roles uid r.

Definition anyone {Row : Type} : Expr Row := fun _ _ _ => true.

(** The policies of [transactions], [wallets], [fees] and [admin_roles]. *)
Definition transactions_policies : list (Policy Db.Transaction) :=
  [ForSelect [authenticated] (own_or_admin Db.user_id);
   ForInsert [authenticated] (own Db.user_id);
   ForUpdate [authenticated] (own_or_admin Db.user_id) (own_or_admin Db.user_id)].

Definition wallets_policies : list (Policy Db.Wallet) :=
  [ForSelect [authenticated] (own_or_admin Db.wallet_user_id);
   ForInsert [authenticated] anyone;
   ForUpdate [authenticated] (own_or_admin Db.wallet_user_id)
     (own_or_admin Db.wallet_user_id)].

Definition fees_policies : list (Policy Db.Fee) :=
  [ForSelect [authenticated] (own Db.fee_user_id);
   ForInsert [authenticated] anyone].

Definition admin_roles_policies : list (Policy Schema.AdminRole) :=
  [ForSelect [authenticated] admin_only;
   ForAll [authenticated] super_admin_only super_admin_only].

End Rls.

(** ** Vocabulary of the schema properties *)

(** The wallet the trigger creates. *)
Definition fresh_wallet (id : string) : Db.Wallet :=
  {| Db.wallet_user_id := id; Db.balance := 0%float; Db.pending_balance := 0%float;
     Db.blocked_balance := 0%float |}.

(** Every user has exactly the wallet the trigger created, and nobody else
    has one. *)
Definition wallets_match_users (st : Schema.State) : Prop :=
  forall u, Schema.wallets_of u st =
            if existsb (String.eqb u) (Schema.users st) then [fresh_wallet u] else [].

(** ** The dashboard's figures ([loadTransactions], [handlePaymentSuccess]) *)

Module Dashboard.

(** A row of [transactions] as the dashboard reads it: the status, the
    number [parseFloat(t.amount)] yields, and [paid_at]. *)
Record Row := {
  status : string;
  amount : Js.number;
  paid_at : option string
}.

(** The component's state that the two loaders set. *)
Record State := {
  dailyRevenue : list Js.number;
  totalSales : Js.number;
  balance : Js.number;
  averageTicket : Js.number;
  approvalRate : Js.number
}.

(** A length as a [number]. *)
Definition of_nat (n : nat) : Js.number :=
  PrimFloat.of_uint63 (Uint63.of_Z (Z.of_nat n)).

(** [rows.reduce((sum, t) => sum + parseFloat(t.amount), 0)] *)
Definition revenue (rows : list Row) : Js.number :=
  fold_left (fun sum t => (sum + amount t)%float) rows 0%float.

(** [.eq('status', 'paid')] *)
Definition paid (table : list Row) : list Row :=
  filter (fun t => status t =? "paid") table.

(** [t.paid_at && t.paid_at.startsWith(day)] *)
Definition paid_on (day : string) (t : Row) : bool :=
  match paid_at t with
  | Some d => negb (d =? "") && String.prefix day d
  | None => false
  end.

Section Loaders.

(** The date [k] days before today, as
    [date.toISOString().split('T')[0]] gives it. *)
Variable isoDate : nat -> string.

Definition last8Days : list string := map (fun i => isoDate (7 - i)) (seq 0 8).

(** [loadTransactions]: [first] is the table as the query for the paid rows
    sees it and [second] as the query for all statuses sees it, [None] when a
    query yields no data. *)
Definition loadTransactions (first second : option (list Row)) (s : State) : State :=
  match first with
  | None => s
  | Some table =>
      let transactions := paid table in
      let revenueByDay :=
        map (fun day => revenue (filter (paid_on day) transactions)) last8Days in
      let totalRevenue := revenue transactions in
      let avgTicket :=
        if Nat.ltb 0 (List.length transactions)
        then (totalRevenue / of_nat (List.length transactions))%float
        else 0%float in
      let rate :=
        match second with
        | Some (t :: rest) =>
            (of_nat (List.length (paid (t :: rest)))
             / of_nat (List.length (t :: rest)) * 100)%float
        | _ => approvalRate s
        end in
      {| dailyRevenue := revenueByDay;
         totalSales := totalRevenue;
         balance := (totalRevenue * 0x1.e666666666666p-1)%float;
         averageTicket := avgTicket;
         approvalRate := rate |}
  end.

(** [handlePaymentSuccess] *)
Definition handlePaymentSuccess (first : option (list Row)) (s : State) : State :=
  match first with
  | None => s
  | Some table =>
      let totalRevenue := revenue (paid table) in
      {| dailyRevenue := dailyRevenue s;
         totalSales := totalRevenue;
         balance := (totalRevenue * 0x1.e666666666666p-1)%float;
         averageTicket := averageTicket s;
         approvalRate := approvalRate s |}
  end.

End Loaders.

(** The state before any load: [useState(0)] and [useState([])]. *)
Definition initial : State :=
  {| dailyRevenue := []; totalSales := 0%float; balance := 0%float;
     averageTicket := 0%float; approvalRate := 0%float |}.

End Dashboard.

(** * Properties *)

(** ** The webhook handler, step by step *)

Section WebhookFacts.

Variable constructEvent : string -> string -> string -> result Json.
Variable JSON_parse : string -> result Json.
Variable check : Db.Transaction -> bool.

Lemma process_event_table (e : Event) (o : StripeObject) (now : string) (db : Db.DB) :
  ev_data_object e = Some o ->
  process_event check e now db =
    (Done tt,
     match patch_for (ev_type e) o now with
     | Some (p, ref) => fst (Db.update_transactions check p ref db)
     | None => db
     end).
Proof.
  intros Ho. unfold process_event, patch_for, data_object, bind, exec, ret.
  rewrite Ho.
  repeat match goal with
         | |- context [if ?b then _ else _] => destruct b
         | |- context [Db.update_transactions ?c ?p ?r ?d] =>
             destruct (Db.update_transactions c p r d)
         end; reflexivity.
Qed.

Lemma process_event_no_object (e : Event) (now : string) (db : Db.DB) :
  ev_data_object e = None ->
  process_event check e now db =
    (if handled (ev_type e) then Thrown TypeError else Done tt, db).
Proof.
  intros Ho. unfold process_event, handled, data_object, bind, throw, ret.
  rewrite Ho. cbn [existsb].
  repeat match goal with
         | |- context [?t =? ?s] => destruct (t =? s)
         end; reflexivity.
Qed.

Lemma serve_preflight (req : Request) (now : string) (db : Db.DB) :
  method req = "OPTIONS" ->
  serve constructEvent JSON_parse check req now db =
    ({| resp_status := 200; resp_body := NoBody |}, db).
Proof. intros H. unfold serve. rewrite H. reflexivity. Qed.

Lemma serve_steps (req : Request) (now : string) (db : Db.DB) :
  method req <> "OPTIONS" ->
  serve constructEvent JSON_parse check req now db =
    match configured db with
    | None => (unconfigured_response, db)
    | Some c =>
        match decode constructEvent JSON_parse c req with
        | Done json => try_catch (process check json now) 500 "Erro ao processar webhook" db
        | Thrown e =>
            ({| resp_status := 500;
                resp_body := ErrorBody e "Erro ao processar webhook" |}, db)
        | Returned r => (r, db)
        end
    end.
Proof.
  intros H. unfold serve. apply String.eqb_neq in H. rewrite H.
  unfold try_catch, handle, configuration, configured, bind, query, pure, throw, ret.
  destruct (Db.select_psp_configuration "stripe" db) as [c|]; [|reflexivity].
  destruct (Js.truthy (Db.api_key_secret c)); [|reflexivity].
  destruct (decode constructEvent JSON_parse c req); reflexivity.
Qed.

Lemma process_steps (e : Event) (o : StripeObject) (now : string) (db : Db.DB) :
  ev_data_object e = Some o ->
  try_catch (process check (JEvent e) now) 500 "Erro ao processar webhook" db =
    (received,
     Db.insert_activity_log (log_of e)
       match patch_for (ev_type e) o now with
       | Some (p, ref) => fst (Db.update_transactions check p ref db)
       | None => db
       end).
Proof.
  intros Ho. unfold try_catch, process, bind, ret, exec.
  rewrite (process_event_table e o now db Ho). reflexivity.
Qed.


End WebhookFacts.


Section WebhookApplied.

Variable constructEvent : string -> string -> string -> result Json.
Variable JSON_parse : string -> result Json.
Variable check : Db.Transaction -> bool.

Lemma forallb_accepts (p : Db.Patch) (ref : string) (ts : list Db.Transaction) :
  (forall t, In t ts -> Db.matches ref t = true -> check (Db.apply_patch p t) = true) ->
  forallb (fun t => negb (Db.matches ref t) || check (Db.apply_patch p t)) ts = true.
Proof.
  intros H. apply forallb_forall. intros t Ht.
  destruct (Db.matches ref t) eqn:Hm; [|reflexivity].
  cbn. now apply H.
Qed.

Lemma update_accepted (p : Db.Patch) (ref : string) (db : Db.DB) :
  (forall t, In t (Db.transactions db) -> Db.matches ref t = true ->
             check (Db.apply_patch p t) = true) ->
  Db.update_transactions check p ref db =
    (Db.set_transactions db (rewritten p ref (Db.transactions db)), false).
Proof.
  intros H. unfold Db.update_transactions.
  now rewrite (forallb_accepts p ref _ H).
Qed.

Lemma rewritten_unmatched (p : Db.Patch) (ref : string) (ts : list Db.Transaction) :
  (forall t, In t ts -> Db.matches ref t = false) ->
  rewritten p ref ts = ts.
Proof.
  induction ts as [|t ts IH]; intros H; [reflexivity|].
  cbn. rewrite (H t (or_introl eq_refl)).
  f_equal. apply IH. intros u Hu. apply H. now right.
Qed.

Lemma update_unmatched (p : Db.Patch) (ref : string) (db : Db.DB) :
  (forall t, In t (Db.transactions db) -> Db.matches ref t = false) ->
  Db.update_transactions check p ref db = (db, false).
Proof.
  intros H. rewrite update_accepted.
  - rewrite (rewritten_unmatched p ref _ H). now destruct db.
  - intros t Ht Hm. rewrite (H t Ht) in Hm. discriminate.
Qed.

(** A decoded event with a data object is applied, logged and
    acknowledged. *)
Lemma serve_applied (req : Request) (now : string) (db : Db.DB)
    (c : Db.PspConfiguration) (e : Event) (o : StripeObject) :
  method req <> "OPTIONS" ->
  configured db = Some c ->
  decode constructEvent JSON_parse c req = Done (JEvent e) ->
  ev_data_object e = Some o ->
  serve constructEvent JSON_parse check req now db =
    (received,
     Db.insert_activity_log (log_of e)
       match patch_for (ev_type e) o now with
       | Some (p, ref) => fst (Db.update_transactions check p ref db)
       | None => db
       end).
Proof.
  intros Hm Hc Hd Ho.
  rewrite (serve_steps _ _ _ _ _ _ Hm), Hc, Hd.
  now apply process_steps.
Qed.


End WebhookApplied.

(** ** Missing webhook secret (C1) *)




(** ** Status transitions (C2) *)

(** C2, as the specification states it, fails: [paid -> failed] is no edge
    of the state machine, yet a [payment_intent.payment_failed] event moves a
    [paid] transaction to [failed]; and under the schema's own row
    constraints the same event moves a [cancelled] transaction to [failed],
    which is no edge either. *)
Lemma failed_event_overwrites_paid :
  Spec.edge "paid" "failed" = false /\
  map Db.status
    (Db.transactions
       (snd (serve Sample.constructEvent Sample.JSON_parse Db.no_check
               (Sample.post None "payment_failed pi_1") "t"
               (Sample.store "paid" None)))) = ["failed"] /\
  Spec.edge "cancelled" "failed" = false /\
  map Db.status
    (Db.transactions
       (snd (serve Sample.constructEvent Sample.JSON_parse Db.transactions_check
               (Sample.post None "payment_failed pi_1") "t"
               (Sample.store "cancelled" None)))) = ["failed"].
Proof. repeat split. Qed.

(** C2, amended: the handler has no transition rule. For every handled
    event the store accepts, every transaction whose provider reference
    matches gets the event's status whatever its current status is, and every
    other transaction is left as it is; a [payment_intent.payment_failed]
    event writes [failed], also over [paid]. *)
Theorem webhook_overwrites_status
    (constructEvent : string -> string -> string -> result Json)
    (JSON_parse : string -> result Json) (check : Db.Transaction -> bool)
    (req : Request) (now : string) (db : Db.DB)
    (c : Db.PspConfiguration) (e : Event) (o : StripeObject)
    (p : Db.Patch) (ref : string) :
  method req <> "OPTIONS" ->
  configured db = Some c ->
  decode constructEvent JSON_parse c req = Done (JEvent e) ->
  ev_data_object e = Some o ->
  patch_for (ev_type e) o now = Some (p, ref) ->
  (forall t, In t (Db.transactions db) -> Db.matches ref t = true ->
             check (Db.apply_patch p t) = true) ->
  let db' := snd (serve constructEvent JSON_parse check req now db) in
  Db.transactions db' = rewritten p ref (Db.transactions db) /\
  (forall t, In t (Db.transactions db) -> Db.matches ref t = true ->
             In (Db.apply_patch p t) (Db.transactions db') /\
             Db.status (Db.apply_patch p t) = Db.p_status p) /\
  (forall t, In t (Db.transactions db) -> Db.matches ref t = false ->
             In t (Db.transactions db')) /\
  (ev_type e = "payment_intent.payment_failed" -> Db.p_status p = "failed").
Proof.
  intros Hm Hc Hd Ho Hp Hk db'.
  assert (Ht : Db.transactions db' = rewritten p ref (Db.transactions db)).
  { unfold db'. rewrite (serve_applied _ _ _ _ _ _ c e o Hm Hc Hd Ho), Hp.
    now rewrite (update_accepted _ _ _ _ Hk). }
  split; [exact Ht|]. rewrite Ht. split; [|split].
  - intros t Hin Hy. split; [|reflexivity].
    apply in_map_iff. exists t. now rewrite Hy.
  - intros t Hin Hn. apply in_map_iff. exists t. now rewrite Hn.
  - intros Hty. rewrite Hty in Hp. cbn in Hp. now inversion Hp.
Qed.

(** The amended C2 at a [paid] transaction and a failure event. *)
Lemma webhook_overwrites_status_witness :
  Db.transactions
    (snd (serve Sample.constructEvent Sample.JSON_parse Db.no_check
            (Sample.post None "payment_failed pi_1") "t" (Sample.store "paid" None))) =
  [Db.apply_patch
     {| Db.p_status := "failed"; Db.p_gateway_response := Sample.intent "pi_1" "";
        Db.p_settled_at := None; Db.p_refunded_at := None |}
     (Sample.tx "tx_1" "pi_1" "paid" 10000%float)].
Proof.
  apply (proj1 (webhook_overwrites_status
           Sample.constructEvent Sample.JSON_parse Db.no_check
           (Sample.post None "payment_failed pi_1") "t" (Sample.store "paid" None)
           (Sample.config None)
           (Sample.event "evt_2" "payment_intent.payment_failed" "pi_1")
           (Sample.intent "pi_1" "")
           {| Db.p_status := "failed"; Db.p_gateway_response := Sample.intent "pi_1" "";
              Db.p_settled_at := None; Db.p_refunded_at := None |}
           "pi_1"
           ltac:(discriminate) eq_refl eq_refl eq_refl eq_refl
           ltac:(reflexivity))).
Defined.

(** ** Entering [paid] (C4) *)

(** C4, as the specification states it, fails: a transaction of amount
    10000 that enters [paid] gets its status, provider response and
    [settled_at] written and nothing else; no fee record is written and the
    merchant wallet's pending balance stays 0. The specification's own
    half-up rule gives fee 250 and net 9750 for 10000 at 2.5%, and fee 250,
    not 251, for 10001. *)
Lemma paid_writes_no_fee_and_no_wallet_credit :
  let db := Sample.store "pending" None in
  let db' := snd (serve Sample.constructEvent Sample.JSON_parse Db.no_check
                    (Sample.post None "succeeded pi_1") "t" db) in
  map Db.status (Db.transactions db') = ["paid"] /\
  map Db.amount (Db.transactions db') = [10000%float] /\
  Db.fees db' = [] /\
  map Db.pending_balance (Db.wallets db') = [0%float] /\
  Spec.fee 10000 25 1000 = 250%Z /\ Spec.net 10000 25 1000 = 9750%Z /\
  Spec.fee 10001 25 1000 = 250%Z.
Proof. repeat split. Qed.

(** C4, amended: for every transaction entering [paid] through a
    [payment_intent.succeeded] event, the handler sets the status to [paid],
    stores the provider object and stamps [settled_at] with the current time;
    it computes no fee and no net amount, writes no fee record and leaves
    every wallet as it is. *)
Theorem webhook_paid_effects
    (constructEvent : string -> string -> string -> result Json)
    (JSON_parse : string -> result Json) (check : Db.Transaction -> bool)
    (req : Request) (now : string) (db : Db.DB)
    (c : Db.PspConfiguration) (e : Event) (o : StripeObject) :
  method req <> "OPTIONS" ->
  configured db = Some c ->
  decode constructEvent JSON_parse c req = Done (JEvent e) ->
  ev_type e = "payment_intent.succeeded" ->
  ev_data_object e = Some o ->
  let p := {| Db.p_status := "paid"; Db.p_gateway_response := o;
              Db.p_settled_at := Some now; Db.p_refunded_at := None |} in
  (forall t, In t (Db.transactions db) -> Db.matches (obj_id o) t = true ->
             check (Db.apply_patch p t) = true) ->
  let db' := snd (serve constructEvent JSON_parse check req now db) in
  Db.transactions db' = rewritten p (obj_id o) (Db.transactions db) /\
  (forall t, Db.status (Db.apply_patch p t) = "paid" /\
             Db.gateway_response (Db.apply_patch p t) = Some o /\
             Db.settled_at (Db.apply_patch p t) = Some now /\
             Db.amount (Db.apply_patch p t) = Db.amount t) /\
  Db.fees db' = Db.fees db /\
  Db.wallets db' = Db.wallets db.
Proof.
  intros Hm Hc Hd Hty Ho p Hk db'.
  unfold db'. rewrite (serve_applied _ _ _ _ _ _ c e o Hm Hc Hd Ho), Hty.
  cbn [patch_for String.eqb Ascii.eqb Bool.eqb].
  fold p. rewrite (update_accepted _ _ _ _ Hk).
  repeat split.
Qed.

(** The amended C4 at the sample store. *)
Lemma webhook_paid_effects_witness :
  let db' := snd (serve Sample.constructEvent Sample.JSON_parse Db.no_check
                    (Sample.post None "succeeded pi_1") "t"
                    (Sample.store "pending" None)) in
  Db.fees db' = [] /\ Db.wallets db' = [Sample.wallet].
Proof.
  apply (proj2 (proj2 (webhook_paid_effects
           Sample.constructEvent Sample.JSON_parse Db.no_check
           (Sample.post None "succeeded pi_1") "t" (Sample.store "pending" None)
           (Sample.config None)
           (Sample.event "evt_1" "payment_intent.succeeded" "pi_1")
           (Sample.intent "pi_1" "")
           ltac:(discriminate) eq_refl eq_refl eq_refl eq_refl
           ltac:(reflexivity)))).
Defined.

(** ** Unknown transaction (C8) *)

(** C8: a decoded event whose provider reference matches no transaction
    is acknowledged with 200, and no transaction, fee or wallet record
    changes. *)
Theorem webhook_unknown_transaction
    (constructEvent : string -> string -> string -> result Json)
    (JSON_parse : string -> result Json) (check : Db.Transaction -> bool)
    (req : Request) (now : string) (db : Db.DB)
    (c : Db.PspConfiguration) (e : Event) (o : StripeObject)
    (p : Db.Patch) (ref : string) :
  method req <> "OPTIONS" ->
  configured db = Some c ->
  decode constructEvent JSON_parse c req = Done (JEvent e) ->
  ev_data_object e = Some o ->
  patch_for (ev_type e) o now = Some (p, ref) ->
  (forall t, In t (Db.transactions db) -> Db.matches ref t = false) ->
  let out := serve constructEvent JSON_parse check req now db in
  resp_status (fst out) = 200%Z /\
  Db.transactions (snd out) = Db.transactions db /\
  Db.fees (snd out) = Db.fees db /\
  Db.wallets (snd out) = Db.wallets db.
Proof.
  intros Hm Hc Hd Ho Hp Hn out.
  unfold out. rewrite (serve_applied _ _ _ _ _ _ c e o Hm Hc Hd Ho), Hp.
  rewrite (update_unmatched _ _ _ _ Hn). repeat split.
Qed.

(** C8 at an event for the unknown reference [pi_9], under the schema's
    row constraints. *)
Lemma webhook_unknown_transaction_witness :
  let db := Sample.store "pending" None in
  let out := serve Sample.constructEvent Sample.JSON_parse Db.transactions_check
               (Sample.post None "succeeded pi_9") "t" db in
  resp_status (fst out) = 200%Z /\
  Db.transactions (snd out) = Db.transactions db /\
  Db.fees (snd out) = Db.fees db /\
  Db.wallets (snd out) = Db.wallets db.
Proof.
  apply (webhook_unknown_transaction
           Sample.constructEvent Sample.JSON_parse Db.transactions_check
           (Sample.post None "succeeded pi_9") "t" (Sample.store "pending" None)
           (Sample.config None)
           (Sample.event "evt_3" "payment_intent.succeeded" "pi_9")
           (Sample.intent "pi_9" "")
           {| Db.p_status := "paid"; Db.p_gateway_response := Sample.intent "pi_9" "";
              Db.p_settled_at := Some "t"; Db.p_refunded_at := None |}
           "pi_9"
           ltac:(discriminate) eq_refl eq_refl eq_refl eq_refl).
  intros t [Ht|[]]. now subst t.
Defined.

(** ** Redelivery of an event (C3) *)

Section Redelivery.

Variable constructEvent : string -> string -> string -> result Json.
Variable JSON_parse : string -> result Json.
Variable check : Db.Transaction -> bool.

Lemma update_rows (p : Db.Patch) (ref : string) (db : Db.DB) :
  fst (Db.update_transactions check p ref db) =
    Db.set_transactions db (updated_rows check p ref (Db.transactions db)).
Proof.
  unfold Db.update_transactions, updated_rows.
  destruct (forallb _ _); [reflexivity|]. now destruct db.
Qed.

Lemma serve_verdict (req : Request) (now : string) (db : Db.DB) :
  serve constructEvent JSON_parse check req now db =
    match verdict_of constructEvent JSON_parse req (configured db) with
    | Reply r => (r, db)
    | Apply e => (received, applied check e now db)
    end.
Proof.
  unfold verdict_of.
  destruct (method req =? "OPTIONS") eqn:Hm.
  - apply String.eqb_eq in Hm. now apply serve_preflight.
  - apply String.eqb_neq in Hm. rewrite (serve_steps _ _ _ _ _ _ Hm).
    destruct (configured db) as [c|]; [|reflexivity].
    destruct (decode constructEvent JSON_parse c req) as [[|e]|x|r]; try reflexivity.
    destruct (ev_data_object e) as [o|] eqn:Ho.
    + rewrite (process_steps _ _ _ _ _ Ho). unfold applied, applied_rows.
      rewrite Ho. destruct (patch_for (ev_type e) o now) as [[p ref]|].
      * now rewrite update_rows.
      * now destruct db.
    + unfold try_catch, process, bind, ret, exec.
      rewrite (process_event_no_object _ _ _ _ Ho).
      destruct (handled (ev_type e)); [reflexivity|].
      unfold applied, applied_rows. rewrite Ho. now destruct db.
Qed.

Lemma configured_applied (e : Event) (now : string) (db : Db.DB) :
  configured (applied check e now db) = configured db.
Proof. reflexivity. Qed.

Lemma verdict_status (req : Request) (cfg : option Db.PspConfiguration) (r : Response) :
  method req <> "OPTIONS" -> verdict_of constructEvent JSON_parse req cfg = Reply r -> resp_status r <> 200%Z.
Proof.
  intros Hm. apply String.eqb_neq in Hm. unfold verdict_of, decode. rewrite Hm.
  destruct cfg as [c|]; [|intros H; inversion H; discriminate].
  destruct (Js.truthy (Db.webhook_secret c) && Js.truthy (stripe_signature req)).
  - destruct (constructEvent _ _ _) as [[|e]|x]; intros H.
    + inversion H. discriminate.
    + destruct (ev_data_object e); [discriminate H|].
      destruct (handled (ev_type e)); inversion H. discriminate.
    + inversion H. discriminate.
  - destruct (JSON_parse _) as [[|e]|x]; intros H.
    + inversion H. discriminate.
    + destruct (ev_data_object e); [discriminate H|].
      destruct (handled (ev_type e)); inversion H. discriminate.
    + inversion H. discriminate.
Qed.

Lemma patch_for_clock (type : string) (o : StripeObject) (now1 now2 : string) :
  match patch_for type o now1, patch_for type o now2 with
  | Some (p1, r1), Some (p2, r2) =>
      r2 = r1 /\ Db.p_status p2 = Db.p_status p1 /\
      Db.p_gateway_response p2 = Db.p_gateway_response p1
  | None, None => True
  | _, _ => False
  end.
Proof.
  unfold patch_for.
  repeat match goal with
         | |- context [type =? ?s] => destruct (type =? s)
         end; cbn; auto.
Qed.

Lemma matches_apply_patch (p : Db.Patch) (ref : string) (t : Db.Transaction) :
  Db.matches ref (Db.apply_patch p t) = Db.matches ref t.
Proof. reflexivity. Qed.

Lemma unstamp_apply_patch (p1 p2 : Db.Patch) (t : Db.Transaction) :
  Db.p_status p2 = Db.p_status p1 ->
  Db.p_gateway_response p2 = Db.p_gateway_response p1 ->
  unstamp (Db.apply_patch p2 t) = unstamp (Db.apply_patch p1 t) /\
  unstamp (Db.apply_patch p2 (Db.apply_patch p1 t)) = unstamp (Db.apply_patch p1 t).
Proof.
  intros Hst Hgr. unfold unstamp, Db.apply_patch. cbn. rewrite Hst, Hgr. now split.
Qed.

Lemma redelivered_rows (p1 p2 : Db.Patch) (ref : string) (ts : list Db.Transaction) :
  ignores_stamps check ->
  Db.p_status p2 = Db.p_status p1 ->
  Db.p_gateway_response p2 = Db.p_gateway_response p1 ->
  map unstamp (updated_rows check p2 ref (updated_rows check p1 ref ts)) =
    map unstamp (updated_rows check p1 ref ts).
Proof.
  intros Hs Hst Hgr. unfold updated_rows at 2 3.
  destruct (forallb _ ts) eqn:H1.
  - assert (H2 : forallb (fun t => negb (Db.matches ref t) || check (Db.apply_patch p2 t))
                   (rewritten p1 ref ts) = true).
    { apply forallb_forall. intros x Hx. apply in_map_iff in Hx.
      destruct Hx as [t [Hx Ht]]. subst x.
      pose proof (proj1 (forallb_forall _ _) H1 t Ht) as Hc. cbn beta in Hc.
      destruct (Db.matches ref t) eqn:Hm.
      - rewrite matches_apply_patch, Hm. cbn. cbn in Hc.
        rewrite <- Hc. apply Hs. now apply unstamp_apply_patch.
      - now rewrite Hm. }
    unfold updated_rows. rewrite H2. unfold rewritten. rewrite !map_map.
    apply map_ext. intros t. destruct (Db.matches ref t) eqn:Hm.
    + rewrite matches_apply_patch, Hm. now apply unstamp_apply_patch.
    + now rewrite Hm.
  - unfold updated_rows.
    replace (forallb (fun t => negb (Db.matches ref t) || check (Db.apply_patch p2 t)) ts)
      with false; [reflexivity|].
    rewrite <- H1. clear H1. induction ts as [|t ts IH]; [reflexivity|].
    cbn. rewrite IH. f_equal. f_equal.
    apply Hs. now apply unstamp_apply_patch.
Qed.

Lemma redelivered_applied_rows (e : Event) (now1 now2 : string) (ts : list Db.Transaction) :
  ignores_stamps check ->
  map unstamp (applied_rows check e now2 (applied_rows check e now1 ts)) =
    map unstamp (applied_rows check e now1 ts).
Proof.
  intros Hs. unfold applied_rows. destruct (ev_data_object e) as [o|]; [|reflexivity].
  pose proof (patch_for_clock (ev_type e) o now1 now2) as Hc.
  destruct (patch_for (ev_type e) o now1) as [[p1 r1]|],
           (patch_for (ev_type e) o now2) as [[p2 r2]|]; try contradiction.
  - destruct Hc as [Hr [Hst Hgr]]. subst r2. now apply redelivered_rows.
  - reflexivity.
Qed.

End Redelivery.

(** C3, as the specification states it, fails: delivering the same
    [charge.refunded] event a second time is not short-circuited. The second
    run rewrites the transaction ([refunded_at] moves from the first run's
    time to the second's), the store after two deliveries differs from the
    store after one, and the only record kept per delivery, the
    [activity_logs] row, exists twice for the one event id. *)
Lemma redelivery_touches_the_store :
  let db := Sample.store "pending" None in
  let once := serve Sample.constructEvent Sample.JSON_parse Db.transactions_check
                (Sample.post None "refunded pi_1") "t1" db in
  let twice := serve Sample.constructEvent Sample.JSON_parse Db.transactions_check
                 (Sample.post None "refunded pi_1") "t2" (snd once) in
  snd twice <> snd once /\
  map Db.refunded_at (Db.transactions (snd once)) = [Some "t1"] /\
  map Db.refunded_at (Db.transactions (snd twice)) = [Some "t2"] /\
  map Db.event_id (Db.activity_logs (snd once)) = ["evt_4"] /\
  map Db.event_id (Db.activity_logs (snd twice)) = ["evt_4"; "evt_4"].
Proof. split; [discriminate|repeat split]. Qed.

(** C3, amended: the handler keeps no dedup record and does not
    short-circuit a redelivered event. Under a row constraint that does not
    read the time stamps, processing the same request a second time gives the
    same response and leaves every transaction as the first run left it
    except for its time stamps, which the second run may set again, and it
    leaves fees and wallets alone; each acknowledged run appends its own
    [activity_logs] row, so two rows exist for the event after two runs. *)
Theorem webhook_redelivery
    (constructEvent : string -> string -> string -> result Json)
    (JSON_parse : string -> result Json) (check : Db.Transaction -> bool)
    (req : Request) (now1 now2 : string) (db : Db.DB) :
  ignores_stamps check ->
  let once := serve constructEvent JSON_parse check req now1 db in
  let twice := serve constructEvent JSON_parse check req now2 (snd once) in
  fst twice = fst once /\
  map unstamp (Db.transactions (snd twice)) = map unstamp (Db.transactions (snd once)) /\
  Db.fees (snd twice) = Db.fees db /\
  Db.wallets (snd twice) = Db.wallets db /\
  (method req <> "OPTIONS" -> resp_status (fst once) = 200%Z ->
   exists l, Db.activity_logs (snd once) = (Db.activity_logs db ++ [l])%list /\
             Db.activity_logs (snd twice) = (Db.activity_logs db ++ [l; l])%list).
Proof.
  intros Hs once twice. unfold twice, once.
  rewrite (serve_verdict _ _ _ req now1 db).
  destruct (verdict_of constructEvent JSON_parse req (configured db)) as [r|e] eqn:Hv.
  - cbn [fst snd]. rewrite (serve_verdict _ _ _ req now2 db), Hv. cbn [fst snd].
    repeat split. intros Hm H200.
    now destruct (verdict_status _ _ _ _ _ Hm Hv).
  - cbn [fst snd]. rewrite (serve_verdict _ _ _ req now2 (applied check e now1 db)).
    rewrite configured_applied, Hv. cbn [fst snd].
    split; [reflexivity|]. split; [|split; [reflexivity|split; [reflexivity|]]].
    + cbn. now apply redelivered_applied_rows.
    + intros _ _. exists (log_of e). split; [reflexivity|].
      cbn. now rewrite <- app_assoc.
Qed.

(** The amended C3 at a redelivered [charge.refunded] event under the
    schema's row constraints. *)
Lemma webhook_redelivery_witness :
  ignores_stamps Db.transactions_check /\
  let once := serve Sample.constructEvent Sample.JSON_parse Db.transactions_check
                (Sample.post None "refunded pi_1") "t1" (Sample.store "pending" None) in
  let twice := serve Sample.constructEvent Sample.JSON_parse Db.transactions_check
                 (Sample.post None "refunded pi_1") "t2" (snd once) in
  fst twice = fst once /\
  map unstamp (Db.transactions (snd twice)) = map unstamp (Db.transactions (snd once)).
Proof.
  assert (Hs : ignores_stamps Db.transactions_check).
  { intros t t' H. unfold Db.transactions_check.
    now rewrite (f_equal Db.amount H : Db.amount t = Db.amount t'),
                (f_equal Db.status H : Db.status t = Db.status t'),
                (f_equal Db.payment_method H : Db.payment_method t = Db.payment_method t'). }
  split; [exact Hs|].
  pose proof (webhook_redelivery Sample.constructEvent Sample.JSON_parse
                Db.transactions_check (Sample.post None "refunded pi_1") "t1" "t2"
                (Sample.store "pending" None) Hs) as H.
  cbv zeta in H. destruct H as [H1 [H2 _]]. split; [exact H1|exact H2].
Defined.

(** ** Response status of the webhook endpoint (C7) *)

(** C7, as the specification states it, fails. An internal failure is
    answered 200: under the schema's row constraints the store rejects the
    update a [payment_intent.succeeded] event asks for, the handler only
    logs the error, leaves the transaction [pending] and acknowledges the
    event, so that the provider does not retry. And a request that carries no
    signature at all, under a configured webhook secret, is not answered
    400: it is applied and acknowledged. *)
Lemma store_error_acknowledged :
  let now := "2024-01-01T00:00:00Z" in
  let db := Sample.store "pending" None in
  let out := serve Sample.constructEvent Sample.JSON_parse Db.transactions_check
               (Sample.post None "succeeded pi_1") now db in
  let db' := Sample.store "pending" (Some "whsec") in
  let out' := serve Sample.constructEvent Sample.JSON_parse Db.transactions_check
                (Sample.post None "payment_failed pi_1") now db' in
  snd (Db.update_transactions Db.transactions_check
         {| Db.p_status := "paid"; Db.p_gateway_response := Sample.intent "pi_1" "";
            Db.p_settled_at := Some now; Db.p_refunded_at := None |}
         "pi_1" db) = true /\
  resp_status (fst out) = 200%Z /\
  map Db.status (Db.transactions (snd out)) = ["pending"] /\
  option_map Db.webhook_secret (configured db') = Some (Some "whsec") /\
  resp_status (fst out') = 200%Z /\
  map Db.status (Db.transactions (snd out')) = ["failed"].
Proof. repeat split. Qed.

Section WebhookStatus.

Variable constructEvent : string -> string -> string -> result Json.
Variable JSON_parse : string -> result Json.
Variable check : Db.Transaction -> bool.





End WebhookStatus.


(** ** The status a created transaction gets (C9) *)

(** C9: the mapping from the provider's payment-intent status to the
    internal status is total with default [pending]: each listed provider
    status maps as the table says, every other one maps to [pending], the
    result is always one of five internal statuses, and the created
    transaction row carries it. *)
Theorem transactionStatus_mapping :
  CreatePayment.transactionStatus "succeeded" = "paid" /\
  CreatePayment.transactionStatus "processing" = "processing" /\
  CreatePayment.transactionStatus "requires_payment_method" = "pending" /\
  CreatePayment.transactionStatus "requires_confirmation" = "pending" /\
  CreatePayment.transactionStatus "canceled" = "cancelled" /\
  CreatePayment.transactionStatus "payment_failed" = "failed" /\
  (forall s,
     ~ In s ["succeeded"; "processing"; "requires_payment_method";
             "requires_confirmation"; "canceled"; "payment_failed"] ->
     CreatePayment.transactionStatus s = "pending") /\
  (forall s,
     In (CreatePayment.transactionStatus s)
        ["pending"; "processing"; "paid"; "cancelled"; "failed"]) /\
  (forall new_id r c user paymentIntent,
     Db.status (CreatePayment.transaction_row new_id r c user paymentIntent) =
       CreatePayment.transactionStatus (obj_status paymentIntent)).
Proof.
  repeat match goal with |- _ /\ _ => split end; try reflexivity.
  - intros s Hs. unfold CreatePayment.transactionStatus.
    repeat match goal with
           | |- context [s =? ?k] =>
               destruct (String.eqb_spec s k) as [->|_];
                 [exfalso; apply Hs; cbn; tauto|]
           end.
    reflexivity.
  - intros s. unfold CreatePayment.transactionStatus.
    repeat match goal with
           | |- context [s =? ?k] => destruct (s =? k)
           end; cbn; tauto.
Qed.

(** ** Statuses and the schema's constraint (C5) *)

(** C5 at its failing inputs: [paid] and [chargeback] are outside the
    status set of the schema's [transactions] table, yet the webhook handler
    writes [paid] for a [payment_intent.succeeded] event, so that under the
    schema's constraint the update is rejected, the transaction stays
    [pending] and the event is still acknowledged with 200; and the
    create-payment handler writes [paid] for an intent that has already
    succeeded, so that the insert is rejected and the request ends in 400 with
    no transaction stored. *)
Lemma paid_status_rejected_by_schema :
  Db.status_permitted "paid" = false /\
  Db.status_permitted "chargeback" = false /\
  (let db := Sample.store "pending" None in
   let p := {| Db.p_status := "paid"; Db.p_gateway_response := Sample.intent "pi_1" "";
               Db.p_settled_at := Some "t"; Db.p_refunded_at := None |} in
   let out := serve Sample.constructEvent Sample.JSON_parse Db.transactions_check
                (Sample.post None "succeeded pi_1") "t" db in
   Db.update_transactions Db.transactions_check p "pi_1" db = (db, true) /\
   resp_status (fst out) = 200%Z /\
   map Db.status (Db.transactions (snd out)) = ["pending"]) /\
  (let db := Sample.store "pending" None in
   let out := CreatePayment.serve Sample.getUser (Sample.new_Stripe "succeeded")
                Db.transactions_check (Sample.payment 10.5%float) "tx_2" 0 1 db in
   CreatePayment.transactionStatus "succeeded" = "paid" /\
   resp_status (fst out) = 400%Z /\
   Db.transactions (snd out) = Db.transactions db).
Proof. repeat split. Qed.

(** ** Amounts of a created transaction (C6) *)

(** C6, as the specification states it, fails: a request for 10.5 (major
    units) is answered with 200, the amount persisted in the new transaction
    row is 10.5, which is no integer, and the minor-unit amount 1050 exists
    only in the call to the provider, where it is computed from the
    floating-point major-unit value as [Math.round(10.5 * 100)]. *)
Lemma persisted_amount_is_not_minor_units :
  let db := Sample.store "pending" None in
  let out := CreatePayment.serve Sample.getUser
               (Sample.new_Stripe "requires_payment_method")
               Db.transactions_check (Sample.payment 10.5%float) "tx_2" 0 1 db in
  resp_status (fst out) = 200%Z /\
  map Db.amount (Db.transactions (snd out)) = [10000%float; 10.5%float] /\
  Js.is_integer 10.5%float = false /\
  CreatePayment.intent_amount 10.5%float = 1050%float /\
  CreatePayment.intent_amount 10.5%float = Js.Math_round (10.5 * 100)%float.
Proof. repeat split. Qed.

(** C6, amended: for every created transaction, the amount persisted in
    the transaction record is the request's [amount] as it was received, a
    floating-point number of major units; only the amount sent to the
    provider is in minor units, and it is computed from that floating-point
    value as [Math.round(amount * 100)]. *)
Theorem create_payment_amounts
    (getUser : string -> option CreatePayment.User)
    (new_Stripe : string -> CreatePayment.Stripe)
    (check : Db.Transaction -> bool)
    (req : CreatePayment.Request) (new_id : string) (startTime endTime : Z)
    (db : Db.DB) :
  CreatePayment.method req <> "OPTIONS" ->
  let out := CreatePayment.serve getUser new_Stripe check req new_id
               startTime endTime db in
  resp_status (fst out) = 200%Z ->
  exists key r c user stripeCustomer paymentIntent row,
    CreatePayment.json req = Ok r /\
    CreatePayment.paymentIntents_create (new_Stripe key)
      (CreatePayment.intent_params r c user stripeCustomer) = Ok paymentIntent /\
    CreatePayment.ip_amount (CreatePayment.intent_params r c user stripeCustomer) =
      Js.Math_round (pr_amount r * 100)%float /\
    row = CreatePayment.transaction_row new_id r c user paymentIntent /\
    Db.transactions (snd out) = (Db.transactions db ++ [row])%list /\
    Db.amount row = pr_amount r.
Proof.
  intros Hm out. unfold out, CreatePayment.serve.
  rewrite (proj2 (String.eqb_neq _ _) Hm).
  unfold try_catch, CreatePayment.handle, CreatePayment.the_customer,
    bind, query, exec, lift, throw, ret.
  destruct (Js.truthy (CreatePayment.Authorization req)); [|discriminate].
  destruct (getUser _) as [user|]; [|discriminate].
  destruct (Db.select_psp_configuration "stripe" db) as [cfg|]; [|discriminate].
  destruct (Db.is_active cfg); [|discriminate].
  destruct (Js.truthy (Db.api_key_secret cfg)); [|discriminate].
  destruct (CreatePayment.json req) as [r|x]; [|discriminate].
  destruct (customer r) as [c|]; [|discriminate].
  destruct (CreatePayment.customers_list _ _) as [[|first rest]|x]; [| |discriminate].
  - destruct (CreatePayment.customers_create _ _) as [sc|x]; [|discriminate].
    destruct (CreatePayment.paymentIntents_create _ _) as [intent|x] eqn:Hi;
      [|discriminate].
    unfold Db.insert_transaction.
    destruct (check _); [|discriminate]. intros _.
    exists (Js.or_else (Db.api_key_secret cfg) ""), r, c, user, sc, intent.
    eexists. repeat split. exact Hi.
  - destruct (CreatePayment.paymentIntents_create _ _) as [intent|x] eqn:Hi;
      [|discriminate].
    unfold Db.insert_transaction.
    destruct (check _); [|discriminate]. intros _.
    exists (Js.or_else (Db.api_key_secret cfg) ""), r, c, user, first, intent.
    eexists. repeat split. exact Hi.
Qed.

(** The amended C6 at a request for 10.5. *)
Lemma create_payment_amounts_witness :
  exists row,
    Db.transactions
      (snd (CreatePayment.serve Sample.getUser
              (Sample.new_Stripe "requires_payment_method") Db.transactions_check
              (Sample.payment 10.5%float) "tx_2" 0 1 (Sample.store "pending" None))) =
      (Db.transactions (Sample.store "pending" None) ++ [row])%list /\
    Db.amount row = 10.5%float.
Proof.
  destruct (create_payment_amounts Sample.getUser
              (Sample.new_Stripe "requires_payment_method") Db.transactions_check
              (Sample.payment 10.5%float) "tx_2" 0 1 (Sample.store "pending" None)
              ltac:(discriminate) eq_refl)
    as [key [r [c [user [sc [intent [row [Hj [_ [_ [_ [Ht Ha]]]]]]]]]]]].
  exists row. split; [exact Ht|].
  rewrite Ha. now inversion Hj.
Defined.

(** ** Outbound delivery with retries (C10) *)

Section Backoff.

Variable policy : Dispatcher.RetryPolicy.

Lemma backoff_1 :
  Dispatcher.backoff policy 1 =
    Z.min (Dispatcher.backoff_cap policy) (Dispatcher.backoff_base policy).
Proof. unfold Dispatcher.backoff. cbn. now rewrite Z.mul_1_r. Qed.

Lemma backoff_2 :
  Dispatcher.backoff policy 2 =
    Z.min (Dispatcher.backoff_cap policy) (Dispatcher.backoff_base policy * 2).
Proof. reflexivity. Qed.

Lemma backoff_3 :
  Dispatcher.backoff policy 3 =
    Z.min (Dispatcher.backoff_cap policy) (Dispatcher.backoff_base policy * 4).
Proof. reflexivity. Qed.

(** The delay never exceeds the bound. *)
Lemma backoff_bounded (n : nat) :
  (Dispatcher.backoff policy n <= Dispatcher.backoff_cap policy)%Z.
Proof. unfold Dispatcher.backoff. apply Z.le_min_l. Qed.

End Backoff.

(** C10: with a retry policy that allows at least four attempts, an
    endpoint that answers 500 to the first three attempts and 200 to the
    fourth ends delivered, with exactly four recorded attempts, in order, each
    retry issued one backoff delay after the attempt before it and the delays
    not decreasing; and when the endpoint is deactivated after the second
    attempt, two attempts are recorded and a third is never issued. *)
Theorem dispatcher_retries_then_delivers
    (policy : Dispatcher.RetryPolicy) (respond : nat -> option Z)
    (active : nat -> bool) (start : Z) :
  4 <= Dispatcher.max_attempts policy ->
  (0 <= Dispatcher.backoff_base policy)%Z ->
  respond 1 = Some 500%Z -> respond 2 = Some 500%Z ->
  active 1 = true -> active 2 = true ->
  let d := Dispatcher.dispatch policy respond active start in
  let b := Dispatcher.backoff policy in
  (respond 3 = Some 500%Z -> respond 4 = Some 200%Z ->
   active 3 = true -> active 4 = true ->
   Dispatcher.delivered d = true /\
   Dispatcher.attempts d = 4 /\
   map Dispatcher.number (Dispatcher.history d) = [1; 2; 3; 4] /\
   map Dispatcher.response_status (Dispatcher.history d) =
     [Some 500; Some 500; Some 500; Some 200]%Z /\
   map Dispatcher.issued_at (Dispatcher.history d) =
     [start; start + b 1%nat; start + b 1%nat + b 2%nat;
      start + b 1%nat + b 2%nat + b 3%nat]%Z /\
   (b 1%nat <= b 2%nat <= b 3%nat)%Z) /\
  (active 3 = false ->
   Dispatcher.delivered d = false /\
   Dispatcher.attempts d = 2 /\
   map Dispatcher.number (Dispatcher.history d) = [1; 2] /\
   forall a, In a (Dispatcher.history d) -> Dispatcher.number a < 3).
Proof.
  intros Hmax Hbase H1 H2 A1 A2 d b.
  unfold d, Dispatcher.dispatch.
  destruct (Dispatcher.max_attempts policy) as [|[|[|[|m]]]]; try lia.
  split.
  - intros H3 H4 A3 A4. cbn [Dispatcher.attempt_from].
    rewrite A1, A2, A3, A4, H1, H2, H3, H4. cbn.
    repeat split.
    + unfold b. rewrite backoff_1, backoff_2. lia.
    + unfold b. rewrite backoff_2, backoff_3. lia.
  - intros A3. cbn [Dispatcher.attempt_from].
    rewrite A1, A2, A3, H1, H2. cbn. repeat split.
    intros a [Ha|[Ha|[]]]; subst a; cbn; lia.
Qed.

(** C10 at a policy of five attempts, base delay 1 and bound 60. *)
Lemma dispatcher_retries_then_delivers_witness :
  let policy := {| Dispatcher.max_attempts := 5; Dispatcher.backoff_base := 1;
                   Dispatcher.backoff_cap := 60 |} in
  let respond := fun n => if Nat.ltb n 4 then Some 500%Z else Some 200%Z in
  let d := Dispatcher.dispatch policy respond (fun _ => true) 0 in
  let d' := Dispatcher.dispatch policy respond (fun n => Nat.ltb n 3) 0 in
  (Dispatcher.delivered d = true /\ Dispatcher.attempts d = 4 /\
   map Dispatcher.issued_at (Dispatcher.history d) = [0; 1; 3; 7]%Z) /\
  (Dispatcher.delivered d' = false /\ Dispatcher.attempts d' = 2).
Proof.
  cbv zeta. split.
  - destruct (proj1 (dispatcher_retries_then_delivers
                {| Dispatcher.max_attempts := 5; Dispatcher.backoff_base := 1;
                   Dispatcher.backoff_cap := 60 |}
                (fun n => if Nat.ltb n 4 then Some 500%Z else Some 200%Z)
                (fun _ => true) 0%Z
                ltac:(cbn; lia) ltac:(cbn; lia) eq_refl eq_refl eq_refl eq_refl)
              eq_refl eq_refl eq_refl eq_refl) as [Hd [Ha [_ [_ [Ht _]]]]].
    split; [exact Hd|]. split; [exact Ha|exact Ht].
  - destruct (proj2 (dispatcher_retries_then_delivers
                {| Dispatcher.max_attempts := 5; Dispatcher.backoff_base := 1;
                   Dispatcher.backoff_cap := 60 |}
                (fun n => if Nat.ltb n 4 then Some 500%Z else Some 200%Z)
                (fun n => Nat.ltb n 3) 0%Z
                ltac:(cbn; lia) ltac:(cbn; lia) eq_refl eq_refl eq_refl eq_refl)
              eq_refl) as [Hd [Ha _]].
    split; [exact Hd|exact Ha].
Defined.

(** ** Further properties of the handlers *)

(** [configured] is what [configuration] computes. *)
Lemma configuration_configured (db : Db.DB) :
  configuration db =
    match configured db with
    | Some c => (Done c, db)
    | None => (Thrown (Error "Stripe não está configurado"), db)
    end.
Proof.
  unfold configuration, configured, bind, query, ret, throw.
  destruct (Db.select_psp_configuration "stripe" db) as [c|]; [|reflexivity].
  now destruct (Js.truthy (Db.api_key_secret c)).
Qed.

(** X1: a request without a signature header is never verified, also when a
    webhook secret is configured: its body is parsed and applied as it
    is. *)
Theorem webhook_unverified_without_signature_header
    (constructEvent : string -> string -> string -> result Json)
    (JSON_parse : string -> result Json) (check : Db.Transaction -> bool)
    (req : Request) (now : string) (db : Db.DB) (c : Db.PspConfiguration) :
  method req <> "OPTIONS" ->
  configured db = Some c ->
  Js.truthy (stripe_signature req) = false ->
  serve constructEvent JSON_parse check req now db =
    match JSON_parse (body req) with
    | Ok json => try_catch (process check json now) 500 "Erro ao processar webhook" db
    | Raise e => (failure e, db)
    end.
Proof.
  intros Hm Hc Hs. rewrite (serve_steps _ _ _ _ _ _ Hm), Hc.
  unfold decode. rewrite Hs, andb_false_r.
  now destruct (JSON_parse (body req)).
Qed.

(** With the secret [whsec] configured, an event sent without a signature
    header marks the transaction as failed. *)
Lemma webhook_unverified_without_signature_header_witness :
  map Db.status
    (Db.transactions
       (snd (serve Sample.constructEvent Sample.JSON_parse Db.transactions_check
               (Sample.post None "payment_failed pi_1") "t"
               (Sample.store "pending" (Some "whsec"))))) = ["failed"].
Proof.
  rewrite (webhook_unverified_without_signature_header
             Sample.constructEvent Sample.JSON_parse Db.transactions_check
             (Sample.post None "payment_failed pi_1") "t"
             (Sample.store "pending" (Some "whsec")) (Sample.config (Some "whsec"))
             ltac:(discriminate) eq_refl eq_refl).
  reflexivity.
Defined.

(** X2: the webhook handler writes to [transactions] and [activity_logs] only,
    and in [transactions] it neither adds nor removes a row nor changes a
    row's key, amount or provider reference. *)
Theorem webhook_frame
    (constructEvent : string -> string -> string -> result Json)
    (JSON_parse : string -> result Json) (check : Db.Transaction -> bool)
    (req : Request) (now : string) (db : Db.DB) :
  let db' := snd (serve constructEvent JSON_parse check req now db) in
  Db.fees db' = Db.fees db /\
  Db.wallets db' = Db.wallets db /\
  Db.psp_configurations db' = Db.psp_configurations db /\
  Db.psp_transaction_logs db' = Db.psp_transaction_logs db /\
  map Db.tx_id (Db.transactions db') = map Db.tx_id (Db.transactions db) /\
  map Db.amount (Db.transactions db') = map Db.amount (Db.transactions db) /\
  map Db.gateway_transaction_id (Db.transactions db') =
    map Db.gateway_transaction_id (Db.transactions db).
Proof.
  intros db'. unfold db'. rewrite serve_verdict.
  destruct (verdict_of constructEvent JSON_parse req (configured db)) as [r|e];
    [cbn; repeat split|].
  cbn [snd]. unfold applied. cbn.
  assert (H : forall (A : Type) (f : Db.Transaction -> A),
             (forall p t, f (Db.apply_patch p t) = f t) ->
             map f (applied_rows check e now (Db.transactions db)) =
               map f (Db.transactions db)).
  { intros A f Hf. unfold applied_rows, updated_rows.
    destruct (ev_data_object e) as [o|]; [|reflexivity].
    destruct (patch_for (ev_type e) o now) as [[p ref]|]; [|reflexivity].
    destruct (forallb _ _); [|reflexivity].
    unfold rewritten. rewrite map_map. apply map_ext. intros t.
    destruct (Db.matches ref t); [apply Hf|reflexivity]. }
  repeat split; apply H; reflexivity.
Qed.

(** X3: under the schema's status constraint a [payment_intent.succeeded] or
    [charge.dispute.created] event changes no transaction: the statuses
    [paid] and [chargeback] it would write are rejected. *)
Theorem schema_rejects_paid_and_chargeback
    (constructEvent : string -> string -> string -> result Json)
    (JSON_parse : string -> result Json)
    (req : Request) (now : string) (db : Db.DB)
    (c : Db.PspConfiguration) (e : Event) :
  method req <> "OPTIONS" ->
  configured db = Some c ->
  decode constructEvent JSON_parse c req = Done (JEvent e) ->
  ev_type e = "payment_intent.succeeded" \/ ev_type e = "charge.dispute.created" ->
  Db.transactions
    (snd (serve constructEvent JSON_parse Db.transactions_check req now db)) =
  Db.transactions db.
Proof.
  intros Hm Hc Hd Hty. rewrite serve_verdict.
  unfold verdict_of. rewrite (proj2 (String.eqb_neq _ _) Hm), Hc, Hd.
  assert (Hrows : applied_rows Db.transactions_check e now (Db.transactions db) =
                  Db.transactions db).
  { unfold applied_rows. destruct (ev_data_object e) as [o|]; [|reflexivity].
    assert (Hp : exists p ref, patch_for (ev_type e) o now = Some (p, ref) /\
                               Db.status_permitted (Db.p_status p) = false).
    { destruct Hty as [-> | ->]; eexists; eexists; split; reflexivity. }
    destruct Hp as [p [ref [Hp Hst]]]. rewrite Hp. unfold updated_rows.
    destruct (forallb _ _) eqn:Hall; [|reflexivity].
    apply rewritten_unmatched. intros t Ht.
    pose proof (proj1 (forallb_forall _ _) Hall t Ht) as H. cbn beta in H.
    destruct (Db.matches ref t); [|reflexivity].
    unfold Db.transactions_check in H.
    change (Db.status (Db.apply_patch p t)) with (Db.p_status p) in H.
    rewrite Hst, andb_false_r in H. discriminate H. }
  destruct (ev_data_object e) as [o|] eqn:Ho.
  - cbn. exact Hrows.
  - assert (Hh : handled (ev_type e) = true) by (destruct Hty as [-> | ->]; reflexivity).
    now rewrite Hh.
Qed.

(** At an event for a pending transaction, under the schema's
    constraint. *)
Lemma schema_rejects_paid_and_chargeback_witness :
  map Db.status
    (Db.transactions
       (snd (serve Sample.constructEvent Sample.JSON_parse Db.transactions_check
               (Sample.post None "succeeded pi_1") "t"
               (Sample.store "pending" None)))) = ["pending"].
Proof.
  rewrite (schema_rejects_paid_and_chargeback
             Sample.constructEvent Sample.JSON_parse
             (Sample.post None "succeeded pi_1") "t" (Sample.store "pending" None)
             (Sample.config None)
             (Sample.event "evt_1" "payment_intent.succeeded" "pi_1")
             ltac:(discriminate) eq_refl eq_refl (or_introl eq_refl)).
  reflexivity.
Defined.

(** X5: the amount for the provider is computed in binary64 arithmetic.
    [Math.round] sends a tie to the larger integer, and for the request amount
    1.005 (the binary64 value nearest to it) the product with 100 falls below
    100.5, so that the provider amount is 100. *)
Theorem intent_amount_is_floating_point :
  Js.Math_round 2.5%float = 3%float /\
  Js.Math_round (-2.5)%float = (-2)%float /\
  Js.Math_round 0.5%float = 1%float /\
  Js.Math_round (-0.5)%float = (-0)%float /\
  CreatePayment.intent_amount 10.5%float = 1050%float /\
  (0x1.0147ae147ae14p+0 * 100 <? 100.5)%float = true /\
  CreatePayment.intent_amount 0x1.0147ae147ae14p+0%float = 100%float.
Proof. repeat split. Qed.

(** ** What a webhook request does to the store *)

Section WebhookEffects.

Variable constructEvent : string -> string -> string -> result Json.
Variable JSON_parse : string -> result Json.
Variable check : Db.Transaction -> bool.

(** An applied event is one the request decodes to under the configuration
    found. *)
Lemma verdict_apply (req : Request) (cfg : option Db.PspConfiguration) (e : Event) :
  verdict_of constructEvent JSON_parse req cfg = Apply e ->
  method req <> "OPTIONS" /\
  exists c, cfg = Some c /\ decode constructEvent JSON_parse c req = Done (JEvent e) /\
            (ev_data_object e <> None \/ handled (ev_type e) = false).
Proof.
  unfold verdict_of.
  destruct (String.eqb_spec (method req) "OPTIONS") as [Hm|Hm]; [discriminate|].
  destruct cfg as [c|]; [|discriminate].
  destruct (decode constructEvent JSON_parse c req) as [[|e0]|x|r] eqn:Hd;
    try discriminate.
  destruct (ev_data_object e0) as [o|] eqn:Ho.
  - intros H. inversion H. subst e0. split; [exact Hm|]. exists c.
    split; [reflexivity|]. split; [exact Hd|]. left. rewrite Ho. discriminate.
  - destruct (handled (ev_type e0)) eqn:Hh; [discriminate|].
    intros H. inversion H. subst e0. split; [exact Hm|]. exists c.
    split; [reflexivity|]. split; [exact Hd|]. now right.
Qed.

Lemma verdict_preflight (req : Request) (cfg : option Db.PspConfiguration) :
  method req = "OPTIONS" ->
  verdict_of constructEvent JSON_parse req cfg =
    Reply {| resp_status := 200; resp_body := NoBody |}.
Proof. intros H. unfold verdict_of. now rewrite H. Qed.

Lemma set_transactions_same (db : Db.DB) :
  Db.set_transactions db (Db.transactions db) = db.
Proof. now destruct db. Qed.

Lemma applied_rows_unhandled (e : Event) (now : string) (ts : list Db.Transaction) :
  handled (ev_type e) = false -> applied_rows check e now ts = ts.
Proof.
  intros Hh. unfold applied_rows. destruct (ev_data_object e) as [o|]; [|reflexivity].
  replace (patch_for (ev_type e) o now) with (@None (Db.Patch * string)); [reflexivity|].
  revert Hh. unfold handled, patch_for. cbn [existsb].
  repeat match goal with
         | |- context [ev_type e =? ?s] => destruct (ev_type e =? s)
         end; cbn; intros H; try discriminate H; reflexivity.
Qed.

End WebhookEffects.

(** X6: a webhook request that is not answered 200, and a preflight, leave
    the store exactly as it was; a request answered 200 that is no preflight
    appends exactly one [activity_logs] row, the one of the event it decodes
    to. *)
Theorem webhook_store_effect
    (constructEvent : string -> string -> string -> result Json)
    (JSON_parse : string -> result Json) (check : Db.Transaction -> bool)
    (req : Request) (now : string) (db : Db.DB) :
  let out := serve constructEvent JSON_parse check req now db in
  (resp_status (fst out) <> 200%Z -> snd out = db) /\
  (method req = "OPTIONS" -> snd out = db) /\
  (method req <> "OPTIONS" -> resp_status (fst out) = 200%Z ->
   exists c e, configured db = Some c /\
     decode constructEvent JSON_parse c req = Done (JEvent e) /\
     Db.activity_logs (snd out) = (Db.activity_logs db ++ [log_of e])%list).
Proof.
  intros out. unfold out. rewrite serve_verdict.
  destruct (verdict_of constructEvent JSON_parse req (configured db)) as [r|e] eqn:Hv.
  - cbn [fst snd]. split; [reflexivity|]. split; [reflexivity|].
    intros Hm H200. now destruct (verdict_status _ _ _ _ _ Hm Hv).
  - cbn [fst snd]. destruct (verdict_apply _ _ _ _ _ Hv) as [Hm [c [Hc [Hd _]]]].
    split; [intros H; now elim H|]. split; [intros H; contradiction|].
    intros _ _. exists c, e. repeat split; assumption.
Qed.

(** X7: an event of a type the switch has no case for is acknowledged with
    200 and recorded in [activity_logs], and nothing else in the store
    changes, whatever the event carries. *)
Theorem webhook_unhandled_event
    (constructEvent : string -> string -> string -> result Json)
    (JSON_parse : string -> result Json) (check : Db.Transaction -> bool)
    (req : Request) (now : string) (db : Db.DB)
    (c : Db.PspConfiguration) (e : Event) :
  method req <> "OPTIONS" ->
  configured db = Some c ->
  decode constructEvent JSON_parse c req = Done (JEvent e) ->
  handled (ev_type e) = false ->
  serve constructEvent JSON_parse check req now db =
    (received, Db.insert_activity_log (log_of e) db).
Proof.
  intros Hm Hc Hd Hh. rewrite serve_verdict. unfold verdict_of.
  rewrite (proj2 (String.eqb_neq _ _) Hm), Hc, Hd, Hh.
  assert (Ha : applied check e now db = Db.insert_activity_log (log_of e) db).
  { unfold applied. now rewrite (applied_rows_unhandled _ _ _ _ Hh), set_transactions_same. }
  destruct (ev_data_object e); now rewrite Ha.
Qed.

(** X7 at a [customer.created] event that carries no data object. *)
Lemma webhook_unhandled_event_witness :
  serve Sample.constructEvent Scenario.JSON_parse Db.transactions_check
    (Sample.post None "customer.created") "t" (Sample.store "pending" None) =
  (received,
   Db.insert_activity_log
     {| Db.action := "stripe_webhook"; Db.resource_type := "webhook";
        Db.event_type := "customer.created"; Db.event_id := "evt_5" |}
     (Sample.store "pending" None)).
Proof.
  apply (webhook_unhandled_event Sample.constructEvent Scenario.JSON_parse
           Db.transactions_check (Sample.post None "customer.created") "t"
           (Sample.store "pending" None) (Sample.config None)
           {| ev_id := "evt_5"; ev_type := "customer.created"; ev_data_object := None |}
           ltac:(discriminate) eq_refl eq_refl eq_refl).
Defined.

(** X8: the handler goes on only with exactly one configuration row of the
    provider that has a non-empty API key; with none or several rows, or with
    an empty or missing key, every request that is no preflight is answered
    500 and the store is untouched. *)
Theorem webhook_requires_one_usable_configuration
    (constructEvent : string -> string -> string -> result Json)
    (JSON_parse : string -> result Json) (check : Db.Transaction -> bool)
    (req : Request) (now : string) (db : Db.DB) :
  method req <> "OPTIONS" ->
  let rows := filter (fun c => Db.psp_name c =? "stripe") (Db.psp_configurations db) in
  List.length rows <> 1 \/
  (exists c, rows = [c] /\ Js.truthy (Db.api_key_secret c) = false) ->
  serve constructEvent JSON_parse check req now db = (unconfigured_response, db).
Proof.
  intros Hm rows H. rewrite (serve_steps _ _ _ _ _ _ Hm).
  replace (configured db) with (@None Db.PspConfiguration); [reflexivity|].
  unfold configured, Db.select_psp_configuration, Db.single. fold rows.
  destruct H as [H|[c [Hr Hk]]].
  - destruct rows as [|c [|c' rest]]; try reflexivity. now elim H.
  - rewrite Hr, Hk. reflexivity.
Qed.

(** X8 at a store with two configuration rows of the provider. *)
Lemma webhook_requires_one_usable_configuration_witness :
  serve Sample.constructEvent Sample.JSON_parse Db.no_check
    (Sample.post None "succeeded pi_1") "t" Scenario.doubly_configured =
    (unconfigured_response, Scenario.doubly_configured).
Proof.
  apply (webhook_requires_one_usable_configuration
           Sample.constructEvent Sample.JSON_parse Db.no_check
           (Sample.post None "succeeded pi_1") "t" Scenario.doubly_configured
           ltac:(discriminate)).
  left. cbn. discriminate.
Defined.

Lemma patch_for_status (type : string) (o : StripeObject) (now : string)
    (p : Db.Patch) (ref : string) :
  patch_for type o now = Some (p, ref) ->
  In (Db.p_status p) ["paid"; "failed"; "cancelled"; "refunded"; "chargeback"].
Proof.
  unfold patch_for.
  repeat match goal with
         | |- context [type =? ?s] => destruct (type =? s)
         end; intros H; inversion H; cbn; tauto.
Qed.

Lemma rewritten_twice (p1 p2 : Db.Patch) (ref : string) (ts : list Db.Transaction) :
  rewritten p2 ref (rewritten p1 ref ts) =
    map (fun t => if Db.matches ref t
                  then Db.apply_patch p2 (Db.apply_patch p1 t) else t) ts.
Proof.
  unfold rewritten. rewrite map_map. apply map_ext. intros t.
  destruct (Db.matches ref t) eqn:Hm.
  - now rewrite matches_apply_patch, Hm.
  - now rewrite Hm.
Qed.

(** X9: the last event wins. When two handled events for the same provider
    reference are processed one after the other and the store accepts both
    updates, every matching transaction ends with the status of the second
    event, whatever the first one wrote. *)
Theorem webhook_last_event_wins
    (constructEvent : string -> string -> string -> result Json)
    (JSON_parse : string -> result Json) (check : Db.Transaction -> bool)
    (req1 req2 : Request) (now1 now2 : string) (db : Db.DB)
    (c : Db.PspConfiguration) (e1 e2 : Event) (o1 o2 : StripeObject)
    (p1 p2 : Db.Patch) (ref : string) :
  method req1 <> "OPTIONS" -> method req2 <> "OPTIONS" ->
  configured db = Some c ->
  decode constructEvent JSON_parse c req1 = Done (JEvent e1) ->
  decode constructEvent JSON_parse c req2 = Done (JEvent e2) ->
  ev_data_object e1 = Some o1 -> ev_data_object e2 = Some o2 ->
  patch_for (ev_type e1) o1 now1 = Some (p1, ref) ->
  patch_for (ev_type e2) o2 now2 = Some (p2, ref) ->
  (forall t, In t (Db.transactions db) -> Db.matches ref t = true ->
             check (Db.apply_patch p1 t) = true /\
             check (Db.apply_patch p2 (Db.apply_patch p1 t)) = true) ->
  let db1 := snd (serve constructEvent JSON_parse check req1 now1 db) in
  let db2 := snd (serve constructEvent JSON_parse check req2 now2 db1) in
  Db.transactions db2 =
    map (fun t => if Db.matches ref t
                  then Db.apply_patch p2 (Db.apply_patch p1 t) else t)
        (Db.transactions db) /\
  (forall t, In t (Db.transactions db) -> Db.matches ref t = true ->
     exists t', In t' (Db.transactions db2) /\ Db.tx_id t' = Db.tx_id t /\
                Db.status t' = Db.p_status p2).
Proof.
  intros Hm1 Hm2 Hc Hd1 Hd2 Ho1 Ho2 Hp1 Hp2 Hk db1 db2.
  assert (H1 : db1 = Db.insert_activity_log (log_of e1)
                       (Db.set_transactions db (rewritten p1 ref (Db.transactions db)))).
  { unfold db1. rewrite (serve_applied _ _ _ _ _ _ c e1 o1 Hm1 Hc Hd1 Ho1), Hp1.
    rewrite update_accepted; [reflexivity|]. intros t Ht Hy. now apply Hk. }
  assert (Hc1 : configured db1 = Some c) by (rewrite H1; exact Hc).
  assert (Ht1 : Db.transactions db1 = rewritten p1 ref (Db.transactions db))
    by (rewrite H1; reflexivity).
  assert (H2 : Db.transactions db2 =
               rewritten p2 ref (rewritten p1 ref (Db.transactions db))).
  { unfold db2. rewrite (serve_applied _ _ _ _ _ _ c e2 o2 Hm2 Hc1 Hd2 Ho2), Hp2.
    rewrite update_accepted; [now rewrite Ht1|].
    rewrite Ht1. intros x Hx Hy. apply in_map_iff in Hx. destruct Hx as [t [Hx Ht]].
    destruct (Db.matches ref t) eqn:Hmt; subst x.
    - now apply Hk.
    - rewrite Hmt in Hy. discriminate. }
  rewrite H2, rewritten_twice. split; [reflexivity|].
  intros t Ht Hy. exists (Db.apply_patch p2 (Db.apply_patch p1 t)).
  split; [|split; reflexivity].
  apply in_map_iff. exists t. now rewrite Hy.
Qed.

(** X9 at a success event followed by a failure event: the transaction ends
    [failed]. *)
Lemma webhook_last_event_wins_witness :
  map Db.status
    (Db.transactions
       (snd (serve Sample.constructEvent Sample.JSON_parse Db.no_check
               (Sample.post None "payment_failed pi_1") "t2"
               (snd (serve Sample.constructEvent Sample.JSON_parse Db.no_check
                       (Sample.post None "succeeded pi_1") "t1"
                       (Sample.store "pending" None)))))) = ["failed"].
Proof.
  rewrite (proj1 (webhook_last_event_wins
             Sample.constructEvent Sample.JSON_parse Db.no_check
             (Sample.post None "succeeded pi_1")
             (Sample.post None "payment_failed pi_1") "t1" "t2"
             (Sample.store "pending" None) (Sample.config None)
             (Sample.event "evt_1" "payment_intent.succeeded" "pi_1")
             (Sample.event "evt_2" "payment_intent.payment_failed" "pi_1")
             (Sample.intent "pi_1" "") (Sample.intent "pi_1" "")
             {| Db.p_status := "paid"; Db.p_gateway_response := Sample.intent "pi_1" "";
                Db.p_settled_at := Some "t1"; Db.p_refunded_at := None |}
             {| Db.p_status := "failed"; Db.p_gateway_response := Sample.intent "pi_1" "";
                Db.p_settled_at := None; Db.p_refunded_at := None |}
             "pi_1"
             ltac:(discriminate) ltac:(discriminate)
             eq_refl eq_refl eq_refl eq_refl eq_refl eq_refl eq_refl
             ltac:(intros; split; reflexivity))).
  reflexivity.
Defined.

(** X10: the only statuses the webhook handler ever writes are [paid],
    [failed], [cancelled], [refunded] and [chargeback]: after any request,
    each transaction is as it was or carries one of these five. *)
Theorem webhook_statuses_written
    (constructEvent : string -> string -> string -> result Json)
    (JSON_parse : string -> result Json) (check : Db.Transaction -> bool)
    (req : Request) (now : string) (db : Db.DB) :
  Forall2
    (fun t t' =>
       t' = t \/
       In (Db.status t') ["paid"; "failed"; "cancelled"; "refunded"; "chargeback"])
    (Db.transactions db)
    (Db.transactions (snd (serve constructEvent JSON_parse check req now db))).
Proof.
  assert (Hrefl : forall ts : list Db.Transaction,
             Forall2 (fun t t' => t' = t \/
                        In (Db.status t')
                           ["paid"; "failed"; "cancelled"; "refunded"; "chargeback"])
                     ts ts).
  { induction ts; constructor; auto. }
  rewrite serve_verdict.
  destruct (verdict_of constructEvent JSON_parse req (configured db)) as [r|e];
    [apply Hrefl|].
  cbn. unfold applied_rows, updated_rows.
  destruct (ev_data_object e) as [o|]; [|apply Hrefl].
  destruct (patch_for (ev_type e) o now) as [[p ref]|] eqn:Hp; [|apply Hrefl].
  destruct (forallb _ _); [|apply Hrefl].
  assert (Hs := Hp). apply patch_for_status in Hs.
  unfold rewritten. induction (Db.transactions db) as [|t ts IH]; cbn [map].
  - constructor.
  - constructor; [|exact IH].
    destruct (Db.matches ref t); [right; exact Hs|now left].
Qed.

(** ** The create-payment handler, step by step *)

Lemma create_payment_steps
    (getUser : string -> option CreatePayment.User)
    (new_Stripe : string -> CreatePayment.Stripe)
    (check : Db.Transaction -> bool)
    (req : CreatePayment.Request) (new_id : string) (startTime endTime : Z)
    (db : Db.DB) :
  CreatePayment.method req <> "OPTIONS" ->
  CreatePayment.serve getUser new_Stripe check req new_id startTime endTime db =
    match prepare getUser new_Stripe req db with
    | Raise e => (payment_failure e, db)
    | Ok pr =>
        if check (prepared_row new_id pr) then
          (prepared_response new_id pr,
           Db.insert_psp_transaction_log (prepared_log new_id startTime endTime pr)
             (Db.set_transactions db
                (Db.transactions db ++ [prepared_row new_id pr])))
        else
          (payment_failure (Error "Erro ao salvar transação no banco de dados"), db)
    end.
Proof.
  intros Hm. unfold CreatePayment.serve. rewrite (proj2 (String.eqb_neq _ _) Hm).
  unfold try_catch, CreatePayment.handle, CreatePayment.the_customer, prepare,
    resolve_customer, bind, query, exec, lift, throw, ret.
  destruct (Js.truthy (CreatePayment.Authorization req)); [|reflexivity].
  destruct (getUser _) as [user|]; [|reflexivity].
  destruct (Db.select_psp_configuration "stripe" db) as [cfg|]; [|reflexivity].
  destruct (Db.is_active cfg); [|reflexivity].
  destruct (Js.truthy (Db.api_key_secret cfg)); [|reflexivity].
  destruct (CreatePayment.json req) as [r|x]; [|reflexivity].
  destruct (customer r) as [c|]; [|reflexivity].
  destruct (CreatePayment.customers_list _ _) as [[|first rest]|x]; [| |reflexivity].
  - destruct (CreatePayment.customers_create _ _) as [sc|x]; [|reflexivity].
    destruct (CreatePayment.paymentIntents_create _ _) as [intent|x]; [|reflexivity].
    unfold Db.insert_transaction, prepared_row. cbn.
    destruct (check _); reflexivity.
  - destruct (CreatePayment.paymentIntents_create _ _) as [intent|x]; [|reflexivity].
    unfold Db.insert_transaction, prepared_row. cbn.
    destruct (check _); reflexivity.
Qed.

(** ** The create-payment handler: authentication, failure, success *)

(** X4: the create-payment endpoint answers 200 or 400 and nothing else.
    It answers 200 exactly for a preflight and for a request every step of
    which succeeds: an [Authorization] header, a user for its token, exactly
    one configuration row of the provider that is active and has an API key,
    a JSON body with a customer, a provider customer found or created, a
    payment intent created, and a transaction row the store accepts. It
    answers 400 exactly when the request is no preflight and one of these
    steps fails. *)
Theorem create_payment_response_status
    (getUser : string -> option CreatePayment.User)
    (new_Stripe : string -> CreatePayment.Stripe)
    (check : Db.Transaction -> bool)
    (req : CreatePayment.Request) (new_id : string) (startTime endTime : Z)
    (db : Db.DB) :
  let r := fst (CreatePayment.serve getUser new_Stripe check req new_id
                  startTime endTime db) in
  let stripe := fun cfg => new_Stripe (Js.or_else (Db.api_key_secret cfg) "") in
  let stored :=
    exists user cfg p c sc intent,
      Js.truthy (CreatePayment.Authorization req) = true /\
      getUser (Js.replace "Bearer " ""
                 (Js.or_else (CreatePayment.Authorization req) "")) = Some user /\
      Db.select_psp_configuration "stripe" db = Some cfg /\
      Db.is_active cfg = true /\
      Js.truthy (Db.api_key_secret cfg) = true /\
      CreatePayment.json req = Ok p /\
      customer p = Some c /\
      resolve_customer (stripe cfg) c = Ok sc /\
      CreatePayment.paymentIntents_create (stripe cfg)
        (CreatePayment.intent_params p c user sc) = Ok intent /\
      check (CreatePayment.transaction_row new_id p c user intent) = true in
  (resp_status r = 200%Z \/ resp_status r = 400%Z) /\
  (resp_status r = 200%Z <-> CreatePayment.method req = "OPTIONS" \/ stored) /\
  (resp_status r = 400%Z <-> CreatePayment.method req <> "OPTIONS" /\ ~ stored).
Proof.
  intros r stripe stored.
  assert (Hst : stored <->
                exists pr, prepare getUser new_Stripe req db = Ok pr /\
                           check (prepared_row new_id pr) = true).
  { unfold stored, stripe, prepare. split.
    - intros (user & cfg & p & c & sc & intent &
              Ha & Hu & Hc & Hi & Hk & Hj & Hcu & Hr & Hp & Hck).
      rewrite Ha, Hu, Hc, Hi, Hk, Hj, Hcu, Hr, Hp.
      eexists. split; [reflexivity|exact Hck].
    - destruct (Js.truthy (CreatePayment.Authorization req)) eqn:Ha;
        [|intros [pr [H _]]; discriminate].
      destruct (getUser _) as [user|] eqn:Hu; [|intros [pr [H _]]; discriminate].
      destruct (Db.select_psp_configuration "stripe" db) as [cfg|] eqn:Hc;
        [|intros [pr [H _]]; discriminate].
      destruct (Db.is_active cfg) eqn:Hi; [|intros [pr [H _]]; discriminate].
      destruct (Js.truthy (Db.api_key_secret cfg)) eqn:Hk;
        [|intros [pr [H _]]; discriminate].
      destruct (CreatePayment.json req) as [p|x] eqn:Hj;
        [|intros [pr [H _]]; discriminate].
      destruct (customer p) as [c|] eqn:Hcu; [|intros [pr [H _]]; discriminate].
      destruct (resolve_customer _ c) as [sc|x] eqn:Hr;
        [|intros [pr [H _]]; discriminate].
      destruct (CreatePayment.paymentIntents_create _ _) as [intent|x] eqn:Hp;
        [|intros [pr [H _]]; discriminate].
      intros [pr [H Hck]]. exists user, cfg, p, c, sc, intent.
      inversion H as [Hpr]. rewrite <- Hpr in Hck.
      repeat split; try reflexivity; assumption. }
  unfold r.
  destruct (String.eqb_spec (CreatePayment.method req) "OPTIONS") as [Hm|Hm].
  - unfold CreatePayment.serve. rewrite Hm. cbn. split; [now left|]. split.
    + split; [now left|reflexivity].
    + split; [discriminate|]. intros [H _]. now elim H.
  - rewrite (create_payment_steps _ _ _ _ _ _ _ _ Hm).
    destruct (prepare getUser new_Stripe req db) as [pr|e] eqn:Hpr;
      [destruct (check (prepared_row new_id pr)) eqn:Hck|]; cbn.
    + split; [now left|]. split.
      * split; [|reflexivity]. intros _. right. apply Hst. now exists pr.
      * split; [discriminate|]. intros [_ H]. exfalso. apply H, Hst. now exists pr.
    + split; [now right|]. split.
      * split; [discriminate|]. intros [H|H]; [contradiction|].
        apply Hst in H. destruct H as [pr' [H Hck']]. congruence.
      * split; [|reflexivity]. intros _. split; [exact Hm|]. intros H.
        apply Hst in H. destruct H as [pr' [H Hck']]. congruence.
    + split; [now right|]. split.
      * split; [discriminate|]. intros [H|H]; [contradiction|].
        apply Hst in H. destruct H as [pr' [H _]]. discriminate.
      * split; [|reflexivity]. intros _. split; [exact Hm|]. intros H.
        apply Hst in H. destruct H as [pr' [H _]]. discriminate.
Qed.


(** X11: a payment request without an [Authorization] header (or with an
    empty one), or whose token the authentication service does not know, is
    answered 400 with the matching message, and the store is untouched; the
    answer does not depend on the provider. *)
Theorem create_payment_requires_authentication
    (getUser : string -> option CreatePayment.User)
    (new_Stripe : string -> CreatePayment.Stripe)
    (check : Db.Transaction -> bool)
    (req : CreatePayment.Request) (new_id : string) (startTime endTime : Z)
    (db : Db.DB) :
  CreatePayment.method req <> "OPTIONS" ->
  Js.truthy (CreatePayment.Authorization req) = false \/
  getUser (Js.replace "Bearer " "" (Js.or_else (CreatePayment.Authorization req) "")) = None ->
  CreatePayment.serve getUser new_Stripe check req new_id startTime endTime db =
    (payment_failure
       (Error (if Js.truthy (CreatePayment.Authorization req)
               then "Usuário não autenticado"
               else "Token de autenticação não fornecido")), db).
Proof.
  intros Hm H. rewrite (create_payment_steps _ _ _ _ _ _ _ _ Hm). unfold prepare.
  destruct (Js.truthy (CreatePayment.Authorization req)); [|reflexivity].
  destruct H as [H|H]; [discriminate|]. now rewrite H.
Qed.

(** X11 at a request without a header and at a request with an unknown
    token. *)
Lemma create_payment_requires_authentication_witness :
  resp_status
    (fst (CreatePayment.serve Sample.getUser (Sample.new_Stripe "processing")
            Db.no_check (Scenario.payment_with None) "tx_2" 0 1
            (Sample.store "pending" None))) = 400%Z /\
  CreatePayment.serve Sample.getUser (Sample.new_Stripe "processing")
    Db.no_check (Scenario.payment_with (Some "Bearer other")) "tx_2" 0 1
    (Sample.store "pending" None) =
    (payment_failure (Error "Usuário não autenticado"), Sample.store "pending" None).
Proof.
  split.
  - rewrite (create_payment_requires_authentication Sample.getUser
               (Sample.new_Stripe "processing") Db.no_check
               (Scenario.payment_with None) "tx_2" 0 1 (Sample.store "pending" None)
               ltac:(discriminate) (or_introl eq_refl)).
    reflexivity.
  - apply (create_payment_requires_authentication Sample.getUser
             (Sample.new_Stripe "processing") Db.no_check
             (Scenario.payment_with (Some "Bearer other")) "tx_2" 0 1
             (Sample.store "pending" None)
             ltac:(discriminate) (or_intror eq_refl)).
Defined.

(** X12: a payment request answered 400 leaves the store exactly as it
    was: the handler writes nothing before its last step that can fail. *)
Theorem create_payment_failure_leaves_store
    (getUser : string -> option CreatePayment.User)
    (new_Stripe : string -> CreatePayment.Stripe)
    (check : Db.Transaction -> bool)
    (req : CreatePayment.Request) (new_id : string) (startTime endTime : Z)
    (db : Db.DB) :
  let out := CreatePayment.serve getUser new_Stripe check req new_id
               startTime endTime db in
  resp_status (fst out) = 400%Z -> snd out = db.
Proof.
  intros out. unfold out.
  destruct (String.eqb_spec (CreatePayment.method req) "OPTIONS") as [Hm|Hm].
  - unfold CreatePayment.serve. rewrite Hm. reflexivity.
  - rewrite (create_payment_steps _ _ _ _ _ _ _ _ Hm).
    destruct (prepare getUser new_Stripe req db) as [pr|e]; [|reflexivity].
    destruct (check (prepared_row new_id pr)); [discriminate|reflexivity].
Qed.

(** X12 at an intent that has already succeeded, whose row the schema's
    constraint rejects. *)
Lemma create_payment_failure_leaves_store_witness :
  snd (CreatePayment.serve Sample.getUser (Sample.new_Stripe "succeeded")
         Db.transactions_check (Sample.payment 10.5%float) "tx_2" 0 1
         (Sample.store "pending" None)) = Sample.store "pending" None.
Proof.
  apply (create_payment_failure_leaves_store Sample.getUser
           (Sample.new_Stripe "succeeded") Db.transactions_check
           (Sample.payment 10.5%float) "tx_2" 0 1 (Sample.store "pending" None)
           eq_refl).
Defined.

(** X13: a payment request answered 200 that is no preflight has stored
    exactly one new transaction and one provider log entry and nothing else.
    The transaction has the key the store assigned, belongs to the
    authenticated user, is filed under the provider's intent id and satisfies
    the row constraint; the log entry refers to it, with status code 200 and
    the time between the two clock readings; and the response reports the
    stored key, intent id, status and amount. *)
Theorem create_payment_success_effects
    (getUser : string -> option CreatePayment.User)
    (new_Stripe : string -> CreatePayment.Stripe)
    (check : Db.Transaction -> bool)
    (req : CreatePayment.Request) (new_id : string) (startTime endTime : Z)
    (db : Db.DB) :
  CreatePayment.method req <> "OPTIONS" ->
  let out := CreatePayment.serve getUser new_Stripe check req new_id
               startTime endTime db in
  resp_status (fst out) = 200%Z ->
  exists pr row log,
    prepare getUser new_Stripe req db = Ok pr /\
    Db.transactions (snd out) = (Db.transactions db ++ [row])%list /\
    Db.psp_transaction_logs (snd out) = (Db.psp_transaction_logs db ++ [log])%list /\
    Db.fees (snd out) = Db.fees db /\
    Db.wallets (snd out) = Db.wallets db /\
    Db.activity_logs (snd out) = Db.activity_logs db /\
    Db.psp_configurations (snd out) = Db.psp_configurations db /\
    check row = true /\
    Db.tx_id row = new_id /\
    Db.user_id row = CreatePayment.id (the_user pr) /\
    Db.gateway_transaction_id row = Some (obj_id (the_intent pr)) /\
    Db.gateway_response row = Some (the_intent pr) /\
    Db.log_transaction_id log = new_id /\
    Db.status_code log = 200%Z /\
    Db.processing_time_ms log = (endTime - startTime)%Z /\
    Db.response_payload log = the_intent pr /\
    resp_body (fst out) =
      PaymentBody new_id (obj_id (the_intent pr)) (obj_client_secret (the_intent pr))
        (Db.status row) (Db.amount row) (Db.payment_method row).
Proof.
  intros Hm out. unfold out. rewrite (create_payment_steps _ _ _ _ _ _ _ _ Hm).
  destruct (prepare getUser new_Stripe req db) as [pr|e]; [|discriminate].
  destruct (check (prepared_row new_id pr)) eqn:Hk; [|discriminate].
  intros _. exists pr, (prepared_row new_id pr), (prepared_log new_id startTime endTime pr).
  repeat match goal with |- _ /\ _ => split end; try reflexivity. exact Hk.
Qed.

(** X13 at the sample request. *)
Lemma create_payment_success_effects_witness :
  let out := CreatePayment.serve Sample.getUser
               (Sample.new_Stripe "requires_payment_method") Db.transactions_check
               (Sample.payment 10.5%float) "tx_2" 5 9 (Sample.store "pending" None) in
  map Db.tx_id (Db.transactions (snd out)) = ["tx_1"; "tx_2"] /\
  map Db.processing_time_ms (Db.psp_transaction_logs (snd out)) = [4%Z].
Proof.
  cbv zeta.
  destruct (create_payment_success_effects Sample.getUser
              (Sample.new_Stripe "requires_payment_method") Db.transactions_check
              (Sample.payment 10.5%float) "tx_2" 5 9 (Sample.store "pending" None)
              ltac:(discriminate) eq_refl)
    as (pr & row & log & _ & Ht & Hl & _ & _ & _ & _ & _ & Hi & _ & _ & _ & _ & _ & Hp & _ & _).
  rewrite Ht, Hl, !map_app. cbn [map]. now rewrite Hi, Hp.
Defined.

(** X14: when the store rejects the new row, the payment intent the
    provider has already created is not recorded: the request is answered 400
    and neither the transaction nor a log entry is stored. *)
Theorem create_payment_rejected_row
    (getUser : string -> option CreatePayment.User)
    (new_Stripe : string -> CreatePayment.Stripe)
    (check : Db.Transaction -> bool)
    (req : CreatePayment.Request) (new_id : string) (startTime endTime : Z)
    (db : Db.DB) (pr : Prepared) :
  CreatePayment.method req <> "OPTIONS" ->
  prepare getUser new_Stripe req db = Ok pr ->
  check (CreatePayment.transaction_row new_id (the_request pr) (the_payer pr)
           (the_user pr) (the_intent pr)) = false ->
  CreatePayment.serve getUser new_Stripe check req new_id startTime endTime db =
    (payment_failure (Error "Erro ao salvar transação no banco de dados"), db).
Proof.
  intros Hm Hp Hk. rewrite (create_payment_steps _ _ _ _ _ _ _ _ Hm), Hp.
  unfold prepared_row. now rewrite Hk.
Qed.

(** X14 at an intent that has already succeeded, under the schema's
    constraint. *)
Lemma create_payment_rejected_row_witness :
  CreatePayment.serve Sample.getUser (Sample.new_Stripe "succeeded")
    Db.transactions_check (Sample.payment 10.5%float) "tx_2" 0 1
    (Sample.store "pending" None) =
    (payment_failure (Error "Erro ao salvar transação no banco de dados"),
     Sample.store "pending" None).
Proof.
  apply (create_payment_rejected_row Sample.getUser (Sample.new_Stripe "succeeded")
           Db.transactions_check (Sample.payment 10.5%float) "tx_2" 0 1
           (Sample.store "pending" None)
           {| the_user := {| CreatePayment.id := "merchant" |};
              the_request :=
                {| pr_amount := 10.5%float; pr_payment_method := "credit_card";
                   customer := Some {| name := "Ana"; email := "ana@example.com";
                                       document := "123"; phone := None |};
                   pr_description := None; payment_method_id := None |};
              the_payer := {| name := "Ana"; email := "ana@example.com";
                              document := "123"; phone := None |};
              the_stripe_customer := {| CreatePayment.customer_id := "cus_1" |};
              the_intent := Sample.intent "pi_new" "succeeded" |}
           ltac:(discriminate) eq_refl eq_refl).
Defined.

(** ** The bearer token *)

Lemma replace_unfold (pat rep s : string) :
  Js.replace pat rep s =
    if String.prefix pat s
    then rep ++ substring (String.length pat) (String.length s - String.length pat) s
    else match s with
         | EmptyString => EmptyString
         | String c s' => String c (Js.replace pat rep s')
         end.
Proof. destruct s; reflexivity. Qed.

Lemma prefix_append (p s : string) : String.prefix p (p ++ s) = true.
Proof.
  induction p as [|a p IH]; cbn.
  - now destruct s.
  - destruct (Ascii.ascii_dec a a) as [_|H]; [exact IH|now elim H].
Qed.

Lemma length_append (p s : string) :
  String.length (p ++ s) = String.length p + String.length s.
Proof. induction p as [|a p IH]; cbn; [reflexivity|now rewrite IH]. Qed.

Lemma substring_whole (s : string) : substring 0 (String.length s) s = s.
Proof. induction s as [|a s IH]; cbn; [reflexivity|now rewrite IH]. Qed.

Lemma substring_append (p s : string) :
  substring (String.length p) (String.length s) (p ++ s) = s.
Proof.
  induction p as [|a p IH]; cbn; [apply substring_whole|exact IH].
Qed.

(** [s.replace(pat, rep)] on a string that starts with the pattern replaces
    that occurrence. *)
Lemma replace_at_start (pat rep s : string) :
  Js.replace pat rep (pat ++ s) = rep ++ s.
Proof.
  rewrite replace_unfold, prefix_append, length_append.
  replace (String.length pat + String.length s - String.length pat)
    with (String.length s) by lia.
  now rewrite substring_append.
Qed.

(** X15: for a header [Bearer <token>] the user is looked up by the token
    alone: an unknown token ends in 400 with the store untouched, and on
    success the stored transaction belongs to the user the authentication
    service returns for the token. *)
Theorem create_payment_bearer_token
    (getUser : string -> option CreatePayment.User)
    (new_Stripe : string -> CreatePayment.Stripe)
    (check : Db.Transaction -> bool)
    (req : CreatePayment.Request) (new_id : string) (startTime endTime : Z)
    (db : Db.DB) (token : string) :
  CreatePayment.method req <> "OPTIONS" ->
  CreatePayment.Authorization req = Some ("Bearer " ++ token) ->
  let out := CreatePayment.serve getUser new_Stripe check req new_id
               startTime endTime db in
  (getUser token = None ->
   out = (payment_failure (Error "Usuário não autenticado"), db)) /\
  (forall u, getUser token = Some u -> resp_status (fst out) = 200%Z ->
   exists row, Db.transactions (snd out) = (Db.transactions db ++ [row])%list /\
               Db.user_id row = CreatePayment.id u).
Proof.
  intros Hm Ha out.
  assert (Ht : Js.replace "Bearer " ""
                 (Js.or_else (CreatePayment.Authorization req) "") = token).
  { rewrite Ha. change (Js.or_else (Some ("Bearer " ++ token)) "")
      with ("Bearer " ++ token). now rewrite replace_at_start. }
  split.
  - intros Hu. unfold out. rewrite (create_payment_steps _ _ _ _ _ _ _ _ Hm).
    unfold prepare. now rewrite Ht, Hu, Ha.
  - intros u Hu. unfold out. rewrite (create_payment_steps _ _ _ _ _ _ _ _ Hm).
    destruct (prepare getUser new_Stripe req db) as [pr|e] eqn:Hp; [|discriminate].
    destruct (check (prepared_row new_id pr)); [|discriminate].
    intros _. exists (prepared_row new_id pr). split; [reflexivity|].
    cbn. revert Hp. unfold prepare. rewrite Ht, Hu, Ha. cbn [Js.truthy].
    repeat match goal with
           | |- context [match ?x with _ => _ end] => destruct x; try discriminate
           end.
    intros H. now inversion H.
Qed.

(** X15 at the sample request, whose header is [Bearer tok]. *)
Lemma create_payment_bearer_token_witness :
  exists row,
    Db.transactions
      (snd (CreatePayment.serve Sample.getUser
              (Sample.new_Stripe "requires_payment_method") Db.transactions_check
              (Sample.payment 10.5%float) "tx_2" 0 1 (Sample.store "pending" None))) =
      (Db.transactions (Sample.store "pending" None) ++ [row])%list /\
    Db.user_id row = "merchant".
Proof.
  apply (proj2 (create_payment_bearer_token Sample.getUser
                  (Sample.new_Stripe "requires_payment_method") Db.transactions_check
                  (Sample.payment 10.5%float) "tx_2" 0 1 (Sample.store "pending" None)
                  "tok" ltac:(discriminate) eq_refl)
           {| CreatePayment.id := "merchant" |} eq_refl eq_refl).
Defined.

(** ** From the created transaction to the provider's events *)

(** X16: the transaction a payment request stores is the one later provider
    events find. When the response reports the transaction [tid] for the
    payment intent [pid], a handled event whose provider reference is [pid],
    once the store accepts its update, leaves the transaction [tid] with the
    event's status and the event's object as provider response. *)
Theorem created_transaction_is_found_by_webhook
    (getUser : string -> option CreatePayment.User)
    (new_Stripe : string -> CreatePayment.Stripe)
    (constructEvent : string -> string -> string -> result Json)
    (JSON_parse : string -> result Json) (check : Db.Transaction -> bool)
    (preq : CreatePayment.Request) (new_id : string) (startTime endTime : Z)
    (wreq : Request) (now : string) (db : Db.DB)
    (c : Db.PspConfiguration) (e : Event) (o : StripeObject) (p : Db.Patch)
    (tid pid : string) (secret : option string) (st : string)
    (amount : Js.number) (payment_method : string) :
  CreatePayment.method preq <> "OPTIONS" ->
  let out1 := CreatePayment.serve getUser new_Stripe check preq new_id
                startTime endTime db in
  fst out1 = {| resp_status := 200;
                resp_body := PaymentBody tid pid secret st amount payment_method |} ->
  method wreq <> "OPTIONS" ->
  configured (snd out1) = Some c ->
  decode constructEvent JSON_parse c wreq = Done (JEvent e) ->
  ev_data_object e = Some o ->
  patch_for (ev_type e) o now = Some (p, pid) ->
  (forall t, In t (Db.transactions (snd out1)) -> Db.matches pid t = true ->
             check (Db.apply_patch p t) = true) ->
  let out2 := serve constructEvent JSON_parse check wreq now (snd out1) in
  exists row, In row (Db.transactions (snd out2)) /\
              Db.tx_id row = tid /\
              Db.status row = Db.p_status p /\
              Db.gateway_response row = Some o.
Proof.
  intros Hpm out1 Hresp Hwm Hc Hd Ho Hp Hk out2.
  assert (Hrow : exists row, In row (Db.transactions (snd out1)) /\
                             Db.tx_id row = tid /\ Db.matches pid row = true).
  { revert Hresp. unfold out1. rewrite (create_payment_steps _ _ _ _ _ _ _ _ Hpm).
    destruct (prepare getUser new_Stripe preq db) as [pr|x]; [|discriminate].
    destruct (check (prepared_row new_id pr)); [|discriminate].
    cbn [fst snd]. intros H. exists (prepared_row new_id pr).
    inversion H. split; [|split].
    - cbn. apply in_or_app. right. now left.
    - reflexivity.
    - unfold Db.matches. cbn. apply String.eqb_refl. }
  destruct Hrow as [row [Hin [Hid Hmatch]]].
  exists (Db.apply_patch p row). split; [|split; [exact Hid|split]].
  - unfold out2. rewrite (serve_applied _ _ _ _ _ _ c e o Hwm Hc Hd Ho), Hp.
    rewrite (update_accepted _ _ _ _ Hk). cbn.
    apply in_map_iff. exists row. now rewrite Hmatch.
  - reflexivity.
  - cbn. revert Hp. unfold patch_for.
    repeat match goal with
           | |- context [ev_type e =? ?s] => destruct (ev_type e =? s)
           end; intros H; inversion H; reflexivity.
Qed.

(** X16 at a stored payment followed by the cancellation of its intent,
    under the schema's constraint. *)
Lemma created_transaction_is_found_by_webhook_witness :
  let out1 := CreatePayment.serve Sample.getUser
                (Sample.new_Stripe "requires_payment_method") Db.transactions_check
                (Sample.payment 10.5%float) "tx_2" 0 1 (Sample.store "pending" None) in
  let out2 := serve Sample.constructEvent Scenario.JSON_parse Db.transactions_check
                (Sample.post None "canceled pi_new") "t" (snd out1) in
  exists row, In row (Db.transactions (snd out2)) /\
              Db.tx_id row = "tx_2" /\
              Db.status row = "cancelled" /\
              Db.gateway_response row = Some (Sample.intent "pi_new" "").
Proof.
  apply (created_transaction_is_found_by_webhook Sample.getUser
           (Sample.new_Stripe "requires_payment_method")
           Sample.constructEvent Scenario.JSON_parse Db.transactions_check
           (Sample.payment 10.5%float) "tx_2" 0 1
           (Sample.post None "canceled pi_new") "t" (Sample.store "pending" None)
           (Sample.config None)
           (Sample.event "evt_6" "payment_intent.canceled" "pi_new")
           (Sample.intent "pi_new" "")
           {| Db.p_status := "cancelled";
              Db.p_gateway_response := Sample.intent "pi_new" "";
              Db.p_settled_at := None; Db.p_refunded_at := None |}
           "tx_2" "pi_new" (Some "secret") "pending" 10.5%float "credit_card"
           ltac:(discriminate) eq_refl ltac:(discriminate)
           eq_refl eq_refl eq_refl eq_refl).
  intros t [Ht|[Ht|[]]] _; subst t; reflexivity.
Defined.

(** ** The schema file: admin roles and the wallet trigger *)

(** X17: whoever has a row in [admin_roles] passes [is_admin], whatever the
    role of the row, [support] included; [is_super_admin] asks for the role
    [super_admin] and implies [is_admin]. *)
Theorem admin_role_functions (rs : list Schema.AdminRole) (u : string) :
  (Schema.is_admin rs u = true <->
   exists r, In r rs /\ Schema.admin_user_id r = u) /\
  (Schema.is_super_admin rs u = true <->
   exists r, In r rs /\ Schema.admin_user_id r = u /\ Schema.role r = "super_admin") /\
  (Schema.is_super_admin rs u = true -> Schema.is_admin rs u = true) /\
  (In {| Schema.admin_user_id := u; Schema.role := "support" |} rs ->
   Schema.is_admin rs u = true).
Proof.
  assert (Ha : Schema.is_admin rs u = true <->
               exists r, In r rs /\ Schema.admin_user_id r = u).
  { unfold Schema.is_admin. rewrite existsb_exists.
    split; intros [r [Hr H]]; exists r; split; try exact Hr.
    - now apply String.eqb_eq.
    - now apply String.eqb_eq. }
  assert (Hs : Schema.is_super_admin rs u = true <->
               exists r, In r rs /\ Schema.admin_user_id r = u /\
                         Schema.role r = "super_admin").
  { unfold Schema.is_super_admin. rewrite existsb_exists.
    split; intros [r [Hr H]]; exists r; split; try exact Hr.
    - apply andb_true_iff in H. destruct H as [H1 H2].
      split; now apply String.eqb_eq.
    - destruct H as [H1 H2]. apply andb_true_iff. split; now apply String.eqb_eq. }
  split; [exact Ha|]. split; [exact Hs|]. split.
  - intros H. apply Ha. apply Hs in H. destruct H as [r [Hr [H1 _]]]. now exists r.
  - intros H. apply Ha. eexists. split; [exact H|reflexivity].
Qed.

Lemma existsb_eqb_app (u id : string) (l : list string) :
  existsb (String.eqb u) (l ++ [id]) = existsb (String.eqb u) l || (u =? id).
Proof. rewrite existsb_app. cbn. now rewrite orb_false_r. Qed.

Lemma existsb_eqb_filter (u id : string) (l : list string) :
  existsb (String.eqb u) (filter (fun v => negb (v =? id)) l) =
    negb (u =? id) && existsb (String.eqb u) l.
Proof.
  induction l as [|v l IH]; cbn; [now rewrite andb_false_r|].
  destruct (String.eqb_spec v id) as [->|Hv]; cbn; rewrite IH.
  - destruct (String.eqb_spec u id); reflexivity.
  - destruct (String.eqb_spec u v) as [->|Huv]; cbn; [|reflexivity].
    destruct (String.eqb_spec v id); [contradiction|reflexivity].
Qed.

Lemma filter_filter_wallets (u id : string) (ws : list Db.Wallet) :
  filter (fun w => Db.wallet_user_id w =? u)
    (filter (fun w => negb (Db.wallet_user_id w =? id)) ws) =
  if u =? id then [] else filter (fun w => Db.wallet_user_id w =? u) ws.
Proof.
  induction ws as [|w ws IH]; cbn; [now destruct (u =? id)|].
  destruct (String.eqb_spec (Db.wallet_user_id w) id) as [Hw|Hw]; cbn; rewrite IH.
  - destruct (String.eqb_spec u id) as [Hu|Hu]; [reflexivity|].
    destruct (String.eqb_spec (Db.wallet_user_id w) u); [congruence|reflexivity].
  - destruct (String.eqb_spec u id) as [Hu|Hu]; [|reflexivity].
    destruct (String.eqb_spec (Db.wallet_user_id w) u); [congruence|reflexivity].
Qed.

Lemma signup_spec (id : string) (st st' : Schema.State) :
  Schema.signup id st = Some st' ->
  existsb (String.eqb id) (Schema.users st) = false /\
  existsb (fun w => Db.wallet_user_id w =? id) (Schema.wallets st) = false /\
  st' = {| Schema.users := Schema.users st ++ [id];
           Schema.wallets := Schema.wallets st ++ [fresh_wallet id];
           Schema.admin_roles := Schema.admin_roles st |}.
Proof.
  unfold Schema.signup, Schema.create_user_wallet, Schema.insert_wallet.
  destruct (existsb (String.eqb id) (Schema.users st)); [discriminate|].
  cbn [Db.wallet_user_id]. 
  change (Schema.wallet_check _) with true. cbn [andb].
  destruct (existsb _ (Schema.wallets st)); cbn; [discriminate|].
  intros H. inversion H. repeat split.
Qed.

Lemma existsb_filter_nil (u : string) (ws : list Db.Wallet) :
  filter (fun w => Db.wallet_user_id w =? u) ws = [] ->
  existsb (fun w => Db.wallet_user_id w =? u) ws = false.
Proof.
  induction ws as [|w ws IH]; cbn; [reflexivity|].
  destruct (Db.wallet_user_id w =? u); [discriminate|exact IH].
Qed.

Lemma reachable_invariant (st : Schema.State) :
  Schema.reachable st -> NoDup (Schema.users st) /\ wallets_match_users st.
Proof.
  induction 1 as [|id st st' Hr [Hn Hw] Hs|id st Hr [Hn Hw]].
  - split; [constructor|]. intros u. reflexivity.
  - apply signup_spec in Hs. destruct Hs as [Hu [_ ->]]. split.
    + cbn. apply NoDup_app; [exact Hn|repeat constructor; intros []|].
      intros x Hx [Hx'|[]]. subst x.
      assert (existsb (String.eqb id) (Schema.users st) = true)
        by (apply existsb_exists; exists id; split; [exact Hx|apply String.eqb_refl]).
      congruence.
    + intros u. unfold Schema.wallets_of. cbn [Schema.wallets Schema.users].
      rewrite filter_app, existsb_eqb_app. fold (Schema.wallets_of u st).
      rewrite Hw. cbn [filter fresh_wallet Db.wallet_user_id].
      rewrite String.eqb_sym.
      destruct (String.eqb_spec u id) as [->|Hne].
      * rewrite Hu. reflexivity.
      * rewrite orb_false_r, app_nil_r. reflexivity.
  - split.
    + cbn. now apply NoDup_filter.
    + intros u. unfold Schema.wallets_of, Schema.delete_user.
      cbn [Schema.wallets Schema.users].
      rewrite filter_filter_wallets, existsb_eqb_filter.
      fold (Schema.wallets_of u st). rewrite Hw.
      now destruct (u =? id).
Qed.

(** X18: in every state reached from the empty tables by sign-ups and
    deletions of users, each user has exactly one wallet, the one the trigger
    created with all three balances 0, nobody else has a wallet, signing up
    a user who does not exist yet succeeds, and signing up an existing user
    again is refused. *)
Theorem one_wallet_per_user (st : Schema.State) :
  Schema.reachable st ->
  NoDup (Schema.users st) /\
  (forall u, In u (Schema.users st) -> Schema.wallets_of u st = [fresh_wallet u]) /\
  (forall w, In w (Schema.wallets st) -> In (Db.wallet_user_id w) (Schema.users st)) /\
  (forall id, ~ In id (Schema.users st) ->
     Schema.signup id st =
       Some {| Schema.users := Schema.users st ++ [id];
               Schema.wallets := Schema.wallets st ++ [fresh_wallet id];
               Schema.admin_roles := Schema.admin_roles st |}) /\
  (forall id, In id (Schema.users st) -> Schema.signup id st = None).
Proof.
  intros Hr. destruct (reachable_invariant st Hr) as [Hn Hw].
  assert (Hin : forall u, existsb (String.eqb u) (Schema.users st) = true <->
                          In u (Schema.users st)).
  { intros u. rewrite existsb_exists. split.
    - intros [x [Hx He]]. apply String.eqb_eq in He. now subst x.
    - intros H. exists u. split; [exact H|apply String.eqb_refl]. }
  split; [exact Hn|]. split; [|split; [|split]].
  - intros u Hu. rewrite Hw. now rewrite (proj2 (Hin u) Hu).
  - intros w Hwin. apply Hin.
    destruct (existsb (String.eqb (Db.wallet_user_id w)) (Schema.users st)) eqn:He;
      [reflexivity|].
    specialize (Hw (Db.wallet_user_id w)). rewrite He in Hw.
    assert (Hf : In w (Schema.wallets_of (Db.wallet_user_id w) st)).
    { apply filter_In. split; [exact Hwin|apply String.eqb_refl]. }
    rewrite Hw in Hf. destruct Hf.
  - intros id Hid.
    assert (He : existsb (String.eqb id) (Schema.users st) = false).
    { destruct (existsb (String.eqb id) (Schema.users st)) eqn:He; [|reflexivity].
      now apply Hin in He. }
    unfold Schema.signup, Schema.create_user_wallet, Schema.insert_wallet.
    rewrite He. cbn [Db.wallet_user_id].
    change (Schema.wallet_check _) with true. cbn [andb].
    specialize (Hw id). rewrite He in Hw.
    now rewrite (existsb_filter_nil _ _ Hw).
  - intros id Hid. unfold Schema.signup. now rewrite (proj2 (Hin id) Hid).
Qed.

(** X18 at the state after two sign-ups and the deletion of the first
    user. *)
Lemma one_wallet_per_user_witness :
  Schema.wallets_of "u2"
    (Schema.delete_user "u1"
       {| Schema.users := ["u1"; "u2"];
          Schema.wallets := [fresh_wallet "u1"; fresh_wallet "u2"];
          Schema.admin_roles := [] |}) = [fresh_wallet "u2"].
Proof.
  apply (proj1 (proj2 (one_wallet_per_user _
           (Schema.reach_delete "u1" _
              (Schema.reach_signup "u2" _ _
                 (Schema.reach_signup "u1" _ _ Schema.reach_empty eq_refl)
                 eq_refl))))).
  cbn. now left.
Defined.

(** ** Row-level security *)

(** X19: the policies of [transactions]. Nobody can delete a transaction
    and an anonymous session can do nothing. An authenticated user can insert
    a row only as its owner, administrators included. A user who is no
    administrator sees exactly the own rows and can update only an own row
    into an own row; an administrator sees every row and can update any row
    into any row. *)
Theorem transactions_row_security
    (admin_roles : list Schema.AdminRole) (s : Rls.Session)
    (t t' : Db.Transaction) :
  let P := Rls.transactions_policies in
  Rls.delete_allowed _ P admin_roles s t = false /\
  (s = Rls.Anon ->
   Rls.select_visible _ P admin_roles s t = false /\
   Rls.insert_allowed _ P admin_roles s t = false /\
   Rls.update_allowed _ P admin_roles s t t' = false) /\
  (forall uid, s = Rls.Authenticated uid ->
   Rls.insert_allowed _ P admin_roles s t = (uid =? Db.user_id t) /\
   (Schema.is_admin admin_roles uid = false ->
    Rls.select_visible _ P admin_roles s t = (uid =? Db.user_id t) /\
    Rls.update_allowed _ P admin_roles s t t' =
      (uid =? Db.user_id t) && (uid =? Db.user_id t')) /\
   (Schema.is_admin admin_roles uid = true ->
    Rls.select_visible _ P admin_roles s t = true /\
    Rls.update_allowed _ P admin_roles s t t' = true)).
Proof.
  intros P. unfold P. split; [|split].
  - unfold Rls.delete_allowed. cbn -[Rls.select_visible].
    now rewrite andb_false_r.
  - intros ->. repeat split.
  - intros uid ->.
    unfold Rls.update_allowed, Rls.select_visible, Rls.insert_allowed,
      Rls.update_targets, Rls.update_accepts, Rls.holds, Rls.own_or_admin,
      Rls.own, Rls.admin_only.
    cbn -[Schema.is_admin String.eqb].
    unfold Rls.own_or_admin, Rls.own, Rls.admin_only.
    split; [now rewrite !orb_false_r|]. split; intros ->.
    + rewrite !orb_false_r. split; [reflexivity|].
      now destruct (uid =? Db.user_id t), (uid =? Db.user_id t').
    + now rewrite !orb_true_r.
Qed.

(** X20: the policies of [wallets]. Nobody can delete a wallet. Every
    authenticated user can insert a wallet row for any user and with any
    balances. A user who is no administrator sees only the own wallet and can
    update only the own wallet, into any row that is still the own one,
    whatever balances it holds. *)
Theorem wallets_row_security
    (admin_roles : list Schema.AdminRole) (uid : string) (w w' : Db.Wallet) :
  let P := Rls.wallets_policies in
  let s := Rls.Authenticated uid in
  Rls.delete_allowed _ P admin_roles s w = false /\
  Rls.insert_allowed _ P admin_roles s w = true /\
  Rls.insert_allowed _ P admin_roles Rls.Anon w = false /\
  (Schema.is_admin admin_roles uid = false ->
   Rls.select_visible _ P admin_roles s w = (uid =? Db.wallet_user_id w) /\
   Rls.update_allowed _ P admin_roles s w w' =
     (uid =? Db.wallet_user_id w) && (uid =? Db.wallet_user_id w')).
Proof.
  intros P s. unfold P, s. split; [|split; [|split]].
  - unfold Rls.delete_allowed. cbn -[Rls.select_visible].
    now rewrite andb_false_r.
  - reflexivity.
  - reflexivity.
  - intros Ha.
    unfold Rls.update_allowed, Rls.select_visible, Rls.update_targets,
      Rls.update_accepts, Rls.holds, Rls.own_or_admin, Rls.own, Rls.admin_only.
    cbn -[Schema.is_admin String.eqb].
    unfold Rls.own_or_admin, Rls.own, Rls.admin_only.
    rewrite Ha, !orb_false_r. split; [reflexivity|].
    now destruct (uid =? Db.wallet_user_id w), (uid =? Db.wallet_user_id w').
Qed.

(** X21: the policies of [admin_roles]. Only administrators see the rows,
    and only a super administrator can insert, update or delete one; so while
    no row has the role [super_admin], no session can change [admin_roles]
    at all. *)
Theorem admin_roles_row_security
    (admin_roles : list Schema.AdminRole) (s : Rls.Session)
    (r r' : Schema.AdminRole) :
  let P := Rls.admin_roles_policies in
  (forall uid, s = Rls.Authenticated uid ->
   Rls.select_visible _ P admin_roles s r = Schema.is_admin admin_roles uid /\
   Rls.insert_allowed _ P admin_roles s r = Schema.is_super_admin admin_roles uid /\
   Rls.update_allowed _ P admin_roles s r r' = Schema.is_super_admin admin_roles uid /\
   Rls.delete_allowed _ P admin_roles s r = Schema.is_super_admin admin_roles uid) /\
  ((forall x, In x admin_roles -> Schema.role x <> "super_admin") ->
   Rls.insert_allowed _ P admin_roles s r = false /\
   Rls.update_allowed _ P admin_roles s r r' = false /\
   Rls.delete_allowed _ P admin_roles s r = false).
Proof.
  intros P. unfold P.
  assert (Hsa : forall uid, Schema.is_super_admin admin_roles uid = true ->
                            Schema.is_admin admin_roles uid = true).
  { intros uid H. unfold Schema.is_super_admin in H. unfold Schema.is_admin.
    apply existsb_exists in H. destruct H as [x [Hx H]].
    apply andb_true_iff in H. apply existsb_exists. exists x. tauto. }
  assert (Hcases : forall uid,
    Rls.select_visible _ Rls.admin_roles_policies admin_roles (Rls.Authenticated uid) r =
      Schema.is_admin admin_roles uid /\
    Rls.insert_allowed _ Rls.admin_roles_policies admin_roles (Rls.Authenticated uid) r =
      Schema.is_super_admin admin_roles uid /\
    Rls.update_allowed _ Rls.admin_roles_policies admin_roles (Rls.Authenticated uid) r r' =
      Schema.is_super_admin admin_roles uid /\
    Rls.delete_allowed _ Rls.admin_roles_policies admin_roles (Rls.Authenticated uid) r =
      Schema.is_super_admin admin_roles uid).
  { intros uid.
    unfold Rls.update_allowed, Rls.delete_allowed, Rls.select_visible,
      Rls.insert_allowed, Rls.update_targets, Rls.update_accepts, Rls.holds,
      Rls.admin_only, Rls.super_admin_only.
    cbn -[Schema.is_admin Schema.is_super_admin].
    unfold Rls.admin_only, Rls.super_admin_only. rewrite !orb_false_r.
    specialize (Hsa uid).
    destruct (Schema.is_super_admin admin_roles uid); cbn.
    - rewrite (Hsa eq_refl). repeat split.
    - rewrite !orb_false_r, !andb_false_r. repeat split. }
  split.
  - intros uid ->. apply Hcases.
  - intros Hno. destruct s as [|uid]; [repeat split|].
    destruct (Hcases uid) as [_ [Hi [Hu Hd]]]. rewrite Hi, Hu, Hd.
    assert (Hf : Schema.is_super_admin admin_roles uid = false).
    { destruct (Schema.is_super_admin admin_roles uid) eqn:He; [|reflexivity].
      unfold Schema.is_super_admin in He. apply existsb_exists in He.
      destruct He as [x [Hx H]]. apply andb_true_iff in H. destruct H as [_ H].
      apply String.eqb_eq in H. now elim (Hno x Hx). }
    now rewrite Hf.
Qed.

(** X22: the policies of [fees]. A user sees exactly the own fee rows,
    administrators have no further right; every authenticated user can insert
    a fee row for anyone; and nobody can update or delete a fee row. *)
Theorem fees_row_security
    (admin_roles : list Schema.AdminRole) (s : Rls.Session) (f f' : Db.Fee) :
  let P := Rls.fees_policies in
  Rls.update_allowed _ P admin_roles s f f' = false /\
  Rls.delete_allowed _ P admin_roles s f = false /\
  (forall uid, s = Rls.Authenticated uid ->
   Rls.select_visible _ P admin_roles s f = (uid =? Db.fee_user_id f) /\
   Rls.insert_allowed _ P admin_roles s f' = true) /\
  (s = Rls.Anon ->
   Rls.select_visible _ P admin_roles s f = false /\
   Rls.insert_allowed _ P admin_roles s f' = false).
Proof.
  intros P. unfold P. split; [|split; [|split]].
  - unfold Rls.update_allowed, Rls.update_targets. cbn -[Rls.select_visible].
    now rewrite andb_false_r.
  - unfold Rls.delete_allowed. cbn -[Rls.select_visible]. now rewrite andb_false_r.
  - intros uid ->. cbn -[String.eqb]. unfold Rls.own. now rewrite !orb_false_r.
  - intros ->. split; reflexivity.
Qed.

(** ** The dashboard's figures *)

Lemma filter_none {A : Type} (f : A -> bool) (l : list A) :
  (forall x, In x l -> f x = false) -> filter f l = [].
Proof.
  induction l as [|a l IH]; intros H; [reflexivity|].
  cbn. rewrite (H a (or_introl eq_refl)). apply IH. intros x Hx. apply H. now right.
Qed.

(** The chart when no listed day has a paid row. *)
Lemma daily_revenue_nothing (isoDate : nat -> string) (rows : list Dashboard.Row) :
  (forall day t, In t rows -> Dashboard.paid_on day t = false) ->
  map (fun day => Dashboard.revenue (filter (Dashboard.paid_on day) rows))
    (Dashboard.last8Days isoDate) = repeat 0%float 8.
Proof.
  intros H. unfold Dashboard.last8Days. cbn [seq map].
  rewrite !(filter_none _ rows) by (intros x Hx; now apply H). reflexivity.
Qed.

(** X23: under the status constraint of the schema file no transaction can
    be [paid], the one status the dashboard counts: whatever the table holds,
    a load sets the total sales, the wallet balance shown, the average ticket
    and each of the eight daily revenues to 0. *)
Theorem dashboard_zero_under_schema_constraint
    (isoDate : nat -> string) (table : list Dashboard.Row)
    (second : option (list Dashboard.Row)) (s : Dashboard.State) :
  (forall t, In t table -> Db.status_permitted (Dashboard.status t) = true) ->
  let s' := Dashboard.loadTransactions isoDate (Some table) second s in
  Dashboard.totalSales s' = 0%float /\
  Dashboard.balance s' = 0%float /\
  Dashboard.averageTicket s' = 0%float /\
  Dashboard.dailyRevenue s' = repeat 0%float 8.
Proof.
  intros H s'.
  assert (Hp : Dashboard.paid table = []).
  { apply filter_none. intros t Ht. specialize (H t Ht).
    destruct (String.eqb_spec (Dashboard.status t) "paid") as [He|]; [|reflexivity].
    rewrite He in H. discriminate. }
  unfold s', Dashboard.loadTransactions. rewrite Hp. cbn [List.length Nat.ltb Nat.leb].
  repeat split.
Qed.

(** X23 at a table of two rows in the statuses the schema knows. *)
Lemma dashboard_zero_under_schema_constraint_witness :
  Dashboard.totalSales
    (Dashboard.loadTransactions (fun _ => "2024-01-01")
       (Some [{| Dashboard.status := "completed"; Dashboard.amount := 100%float;
                 Dashboard.paid_at := Some "2024-01-01T10:00:00Z" |};
              {| Dashboard.status := "pending"; Dashboard.amount := 50%float;
                 Dashboard.paid_at := None |}])
       None Dashboard.initial) = 0%float.
Proof.
  apply (dashboard_zero_under_schema_constraint (fun _ => "2024-01-01")
           [{| Dashboard.status := "completed"; Dashboard.amount := 100%float;
               Dashboard.paid_at := Some "2024-01-01T10:00:00Z" |};
            {| Dashboard.status := "pending"; Dashboard.amount := 50%float;
               Dashboard.paid_at := None |}]
           None Dashboard.initial).
  intros t [<-|[<-|[]]]; reflexivity.
Defined.

(** X24: paid rows without [paid_at] count in the total sales and in no day
    of the revenue chart. When no paid row has a [paid_at], a load sets each of
    the eight daily revenues to 0 while the total is the sum over all paid
    rows. *)
Theorem dashboard_chart_needs_paid_at
    (isoDate : nat -> string) (table : list Dashboard.Row)
    (second : option (list Dashboard.Row)) (s : Dashboard.State) :
  (forall t, In t table -> Dashboard.status t = "paid" -> Dashboard.paid_at t = None) ->
  let s' := Dashboard.loadTransactions isoDate (Some table) second s in
  Dashboard.dailyRevenue s' = repeat 0%float 8 /\
  Dashboard.totalSales s' = Dashboard.revenue (Dashboard.paid table).
Proof.
  intros H s'. split; [|reflexivity].
  unfold s', Dashboard.loadTransactions. cbn [Dashboard.dailyRevenue].
  apply daily_revenue_nothing. intros day t Ht.
  apply filter_In in Ht. destruct Ht as [Ht Hs]. apply String.eqb_eq in Hs.
  unfold Dashboard.paid_on. now rewrite (H t Ht Hs).
Qed.

(** X24 at one paid row of amount 100 without [paid_at]. *)
Lemma dashboard_chart_needs_paid_at_witness :
  let s' := Dashboard.loadTransactions (fun _ => "2024-01-01")
              (Some [{| Dashboard.status := "paid"; Dashboard.amount := 100%float;
                        Dashboard.paid_at := None |}])
              None Dashboard.initial in
  Dashboard.dailyRevenue s' = repeat 0%float 8 /\
  Dashboard.totalSales s' = 100%float.
Proof.
  apply (dashboard_chart_needs_paid_at (fun _ => "2024-01-01")
           [{| Dashboard.status := "paid"; Dashboard.amount := 100%float;
               Dashboard.paid_at := None |}] None Dashboard.initial).
  intros t [<-|[]] _. reflexivity.
Defined.

(** X25: what a load keeps and what it replaces. Without data from the first
    query nothing changes, whatever the second query yields. Without a row
    from the second query the approval rate stays as it was, so that no
    division by zero occurs. With data from both, the new figures depend on
    the data alone, and loading the same data again changes nothing. *)
Theorem dashboard_load_composition
    (isoDate : nat -> string) (first second : option (list Dashboard.Row))
    (s s0 : Dashboard.State) :
  let load := Dashboard.loadTransactions isoDate in
  load None second s = s /\
  (second = None \/ second = Some [] ->
   Dashboard.approvalRate (load first second s) = Dashboard.approvalRate s) /\
  (first <> None -> second <> None -> second <> Some [] ->
   load first second s = load first second s0) /\
  load first second (load first second s) = load first second s.
Proof.
  intros load. unfold load, Dashboard.loadTransactions.
  split; [reflexivity|]. split; [|split].
  - intros [->| ->]; now destruct first.
  - intros Hf Hs He. destruct first as [table|]; [|now elim Hf].
    destruct second as [[|t rest]|]; [now elim He|reflexivity|now elim Hs].
  - destruct first as [table|]; [|reflexivity].
    destruct second as [[|t rest]|]; reflexivity.
Qed.

(** ** Further invariants *)


(** X27: a request that carries a signature, under a configured webhook
    secret, is decided by the verification alone: the plain parse of the body
    is not consulted. *)
Theorem webhook_verified_ignores_plain_parse
    (constructEvent : string -> string -> string -> result Json)
    (JSON_parse JSON_parse' : string -> result Json)
    (check : Db.Transaction -> bool)
    (req : Request) (now : string) (db : Db.DB) (c : Db.PspConfiguration) :
  configured db = Some c ->
  Js.truthy (Db.webhook_secret c) = true ->
  Js.truthy (stripe_signature req) = true ->
  serve constructEvent JSON_parse check req now db =
    serve constructEvent JSON_parse' check req now db.
Proof.
  intros Hc Hs Hg.
  destruct (String.eqb_spec (method req) "OPTIONS") as [Hm|Hm].
  - now rewrite !(serve_preflight _ _ _ _ _ _ Hm).
  - rewrite !(serve_steps _ _ _ _ _ _ Hm), Hc. unfold decode. now rewrite Hs, Hg.
Qed.

(** X27 at a signed request and a parser that rejects every body. *)
Lemma webhook_verified_ignores_plain_parse_witness :
  serve Sample.constructEvent Sample.JSON_parse Db.no_check
    (Sample.post (Some "bad") "succeeded pi_1") "t"
    (Sample.store "pending" (Some "whsec")) =
  serve Sample.constructEvent (fun _ => Raise SyntaxError) Db.no_check
    (Sample.post (Some "bad") "succeeded pi_1") "t"
    (Sample.store "pending" (Some "whsec")).
Proof.
  apply (webhook_verified_ignores_plain_parse Sample.constructEvent
           Sample.JSON_parse (fun _ => Raise SyntaxError) Db.no_check
           (Sample.post (Some "bad") "succeeded pi_1") "t"
           (Sample.store "pending" (Some "whsec")) (Sample.config (Some "whsec"))
           eq_refl eq_refl eq_refl).
Defined.

(** X28: the webhook handler never clears a time stamp. After any request,
    a transaction that had a [settled_at] still has one and a transaction
    that had a [refunded_at] still has one, whatever status the request
    wrote. *)
Theorem webhook_stamps_never_cleared
    (constructEvent : string -> string -> string -> result Json)
    (JSON_parse : string -> result Json) (check : Db.Transaction -> bool)
    (req : Request) (now : string) (db : Db.DB) :
  Forall2
    (fun t t' =>
       (Db.settled_at t <> None -> Db.settled_at t' <> None) /\
       (Db.refunded_at t <> None -> Db.refunded_at t' <> None))
    (Db.transactions db)
    (Db.transactions (snd (serve constructEvent JSON_parse check req now db))).
Proof.
  assert (Hrefl : forall ts : list Db.Transaction,
             Forall2 (fun t t' =>
                        (Db.settled_at t <> None -> Db.settled_at t' <> None) /\
                        (Db.refunded_at t <> None -> Db.refunded_at t' <> None))
                     ts ts).
  { induction ts; constructor; auto. }
  rewrite serve_verdict.
  destruct (verdict_of constructEvent JSON_parse req (configured db)) as [r|e];
    [apply Hrefl|].
  cbn. unfold applied_rows, updated_rows.
  destruct (ev_data_object e) as [o|]; [|apply Hrefl].
  destruct (patch_for (ev_type e) o now) as [[p ref]|]; [|apply Hrefl].
  destruct (forallb _ _); [|apply Hrefl].
  unfold rewritten. induction (Db.transactions db) as [|t ts IH]; cbn [map].
  - constructor.
  - constructor; [|exact IH].
    destruct (Db.matches ref t); [|auto].
    unfold Db.apply_patch. cbn.
    split; intros H.
    + destruct (Db.p_settled_at p); [discriminate|exact H].
    + destruct (Db.p_refunded_at p); [discriminate|exact H].
Qed.

(** X29: deleting a user takes the user's administrator rights away and
    leaves everybody else's as they were. *)
Theorem deleted_user_is_no_admin (id u : string) (st : Schema.State) :
  let st' := Schema.delete_user id st in
  Schema.is_admin (Schema.admin_roles st') id = false /\
  Schema.is_super_admin (Schema.admin_roles st') id = false /\
  (u <> id ->
   Schema.is_admin (Schema.admin_roles st') u =
     Schema.is_admin (Schema.admin_roles st) u /\
   Schema.is_super_admin (Schema.admin_roles st') u =
     Schema.is_super_admin (Schema.admin_roles st) u).
Proof.
  intros st'. unfold st', Schema.delete_user. cbn [Schema.admin_roles].
  unfold Schema.is_admin, Schema.is_super_admin.
  induction (Schema.admin_roles st) as [|r rs [IH1 [IH2 IH3]]].
  - repeat split.
  - cbn. destruct (String.eqb_spec (Schema.admin_user_id r) id) as [Hr|Hr]; cbn.
    + split; [exact IH1|]. split; [exact IH2|]. intros Hu.
      destruct (IH3 Hu) as [H1 H2]. rewrite H1, H2.
      destruct (String.eqb_spec (Schema.admin_user_id r) u); [congruence|].
      split; reflexivity.
    + destruct (String.eqb_spec (Schema.admin_user_id r) id); [contradiction|].
      cbn. split; [exact IH1|]. split; [exact IH2|]. intros Hu.
      destruct (IH3 Hu) as [H1 H2]. now rewrite H1, H2.
Qed.
